(** * chromatica.nvim: the log filter of [rplugin/python3/chromatica/logger.py]

    [ChromaticaLogFilter] is the [logging.Filter] that chromatica installs on
    its file handler.  It drops a record that repeats the previous one within
    [log_message_cooldown] seconds, and it forwards the first errors of every
    logging source to Neovim through [vim.call].

    The embedding follows the Python text statement by statement, in a small
    monad that threads the filter object and the calls made on the Neovim
    handle, and in which a Python exception ends the call while keeping every
    assignment made before it. *)

From Stdlib Require Import ZArith Floats.
From stdpp Require Import gmap strings list.
From stdpp Require Import pretty.

Local Open Scope Z_scope.

Module logger.

(** ** Python values reaching the filter *)

(** An element of [record.args]; the model keeps integers and strings.  They
    compare in Python the way they do here: by value, and an integer never
    equals a string. *)
Inductive PyArg : Type :=
  | ArgInt (n : Z)
  | ArgStr (s : string).

#[global] Instance PyArg_eq_dec : EqDecision PyArg.
Proof. solve_decision. Defined.

(** The exceptions that can cross the filter: the ones [msg % args] raises
    on a template that does not fit its arguments, and the ones the Neovim
    client raises when a remote call fails. *)
Inductive PyExn : Type :=
  | TypeError (text : string)
  | ValueError (text : string)
  | KeyError (text : string)
  | NvimError (text : string)
  | OSError (text : string).

(** How a Python call ends. *)
Inductive Completion (A : Type) : Type :=
  | Normal (a : A)
  | Raise (e : PyExn).
Arguments Normal {A} a.
Arguments Raise {A} e.

(** [record.exc_info] when set: the [(type, value, traceback)] triple that
    [Logger._log] stores, of which the model keeps the first two as text. *)
Record ExcInfo : Type := {
  exc_type : string;
  exc_value : string
}.

(** A [logging.LogRecord], with the attributes and the one method the filter
    reads.  [args] is [None] when the record was built without arguments and
    a tuple otherwise.  [getMessage] is the library's method
    ([str(msg)], then [msg % args] when [args] is not empty); the record
    carries the way that call ends on it, since [%] raises on a template
    that does not match its arguments. *)
Record LogRecord : Type := {
  levelno : Z;
  name : string;
  msg : string;
  args : option (list PyArg);
  exc_info : option ExcInfo;
  stack_info : option string;
  getMessage : Completion string
}.

(** Python truth values of the two optional attributes: [None] is false, a
    triple is true, a string is true unless it is empty. *)
Definition exc_info_true (e : option ExcInfo) : bool :=
  match e with
  | Some _ => true
  | None => false
  end.

Definition stack_info_true (s : option string) : bool :=
  match s with
  | Some (String _ _) => true
  | _ => false
  end.

(** [logging.ERROR] *)
Definition ERROR : Z := 40.

(** [log_message_cooldown = 0.5] *)
Definition log_message_cooldown : float := 0.5%float.

(** The tuple [(record.levelno, record.name, record.msg, record.args)]. *)
Definition Message : Type := Z * string * string * option (list PyArg).

(** ** The filter object *)

(** [self.counter] is a [defaultdict(int)].  [self.last_message_time] starts
    as the integer 0, which the subtraction of line 124 takes as the float
    0.0, and then holds readings of [time.time()].  [self.last_message] is
    [None] or a [Message].  [self.vim] is a handle on the Neovim host; what
    a call on it does is given by the environment of each [filter] call. *)
Record ChromaticaLogFilter : Type := {
  counter : gmap string Z;
  last_message_time : float;
  last_message : option Message
}.

Definition __init__ : ChromaticaLogFilter :=
  {| counter := ∅; last_message_time := 0%float; last_message := None |}.

(** What one [filter] call finds outside the object: the reading of
    [time.time()], and how [self.vim.call(function, argument)] ends. *)
Record Env : Type := {
  time_time : float;
  vim_call : string → string → Completion unit
}.

(** What one call works on: the object, and the calls made so far on the
    Neovim handle, oldest first. *)
Record World : Type := {
  self : ChromaticaLogFilter;
  vim_calls : list (string * string)
}.

(** ** Statements *)

Definition Action (A : Type) : Type := Env → World → Completion A * World.

#[global] Instance Action_ret : MRet Action :=
  λ A a _ w, (Normal a, w).

#[global] Instance Action_bind : MBind Action :=
  λ A B k m env w,
    match m env w with
    | (Normal a, w') => k a env w'
    | (Raise e, w') => (Raise e, w')
    end.

Definition call_time_time : Action float :=
  λ env w, (Normal (time_time env), w).

Definition get_last_message_time : Action float :=
  λ _ w, (Normal (last_message_time (self w)), w).

Definition set_last_message_time (t : float) : Action unit :=
  λ _ w,
    (Normal tt,
     {| self := {| counter := counter (self w);
                   last_message_time := t;
                   last_message := last_message (self w) |};
        vim_calls := vim_calls w |}).

Definition get_last_message : Action (option Message) :=
  λ _ w, (Normal (last_message (self w)), w).

Definition set_last_message (m : option Message) : Action unit :=
  λ _ w,
    (Normal tt,
     {| self := {| counter := counter (self w);
                   last_message_time := last_message_time (self w);
                   last_message := m |};
        vim_calls := vim_calls w |}).

Definition get_counter : Action (gmap string Z) :=
  λ _ w, (Normal (counter (self w)), w).

Definition set_counter (c : gmap string Z) : Action unit :=
  λ _ w,
    (Normal tt,
     {| self := {| counter := c;
                   last_message_time := last_message_time (self w);
                   last_message := last_message (self w) |};
        vim_calls := vim_calls w |}).

(** [self.counter[key]]: a [defaultdict(int)] stores 0 under a key it does
    not hold before it returns it. *)
Definition counter_getitem (key : string) : Action Z :=
  c ← get_counter;
  match c !! key with
  | Some v => mret v
  | None => set_counter (<[key := 0]> c);; mret 0
  end.

(** [self.counter[key] = v] *)
Definition counter_setitem (key : string) (v : Z) : Action unit :=
  c ← get_counter;
  set_counter (<[key := v]> c).

(** [self.counter[key] += n] *)
Definition counter_iadd (key : string) (n : Z) : Action unit :=
  v ← counter_getitem key;
  counter_setitem key (v + n).

(** [record.getMessage()] *)
Definition call_getMessage (record : LogRecord) : Action string :=
  λ _ w, (getMessage record, w).

(** [self.vim.call(function, argument)]: the call is made, then it returns
    or raises. *)
Definition call_vim_call (function argument : string) : Action unit :=
  λ env w,
    (vim_call env function argument,
     {| self := self w;
        vim_calls := vim_calls w ++ [(function, argument)] |}).

Definition when (b : bool) (body : Action unit) : Action unit :=
  if b then body else mret tt.

(** ** [ChromaticaLogFilter.filter] *)

Definition filter (record : LogRecord) : Action bool :=
  t ← call_time_time;
  last_time ← get_last_message_time;
  let elapsed := (t - last_time)%float in
  set_last_message_time t;;
  let message : Message :=
    (levelno record, name record, msg record, args record) in
  last ← get_last_message;
  if bool_decide (Some message = last)
     && (elapsed <? log_message_cooldown)%float
  then mret false
  else
    set_last_message (Some message);;
    (if bool_decide (ERROR ≤ levelno record) then
       counter_iadd (name record) 1;;
       c ← counter_getitem (name record);
       when (bool_decide (c ≤ 2))
         (text ← call_getMessage record;
          call_vim_call "chromatica#util#print_error" text);;
       when (exc_info_true (exc_info record)
             && stack_info_true (stack_info record))
         (counter_iadd (name record) 1)
     else
       c ← counter_getitem (name record);
       when (bool_decide (c < 2))
         (counter_setitem (name record) 0));;
    mret true.

End logger.

Import logger.

(** ** Vocabulary of the statements *)

(** One [filter] call on the object [g], starting with no call made on the
    Neovim handle. *)
Definition evaluate (env : Env) (g : ChromaticaLogFilter) (record : LogRecord)
  : Completion bool * World :=
  filter record env {| self := g; vim_calls := [] |}.

(** How the call ends, the object it leaves, the calls it made on the
    Neovim handle. *)
Definition verdict (env : Env) (g : ChromaticaLogFilter) (record : LogRecord)
  : Completion bool :=
  fst (evaluate env g record).

Definition after (env : Env) (g : ChromaticaLogFilter) (record : LogRecord)
  : ChromaticaLogFilter :=
  self (snd (evaluate env g record)).

Definition notified (env : Env) (g : ChromaticaLogFilter) (record : LogRecord)
  : list (string * string) :=
  vim_calls (snd (evaluate env g record)).

(** [error_counts[source]]: what [self.counter[source]] reads. *)
Definition count (g : ChromaticaLogFilter) (source : string) : Z :=
  default 0 (counter g !! source).

(** The signature of a record. *)
Definition message_of (record : LogRecord) : Message :=
  (levelno record, name record, msg record, args record).

(** The record repeats the last one that passed, within the cooldown. *)
Definition duplicate (env : Env) (g : ChromaticaLogFilter) (record : LogRecord)
  : bool :=
  bool_decide (last_message g = Some (message_of record))
  && (time_time env - last_message_time g <? log_message_cooldown)%float.

(** Line 139 as a whole: the message is formatted, then handed to Neovim. *)
Definition print_error (env : Env) (record : LogRecord) : Completion unit :=
  match getMessage record with
  | Normal text => vim_call env "chromatica#util#print_error" text
  | Raise e => Raise e
  end.

(** The record carries both exception and stack information. *)
Definition penalty (record : LogRecord) : bool :=
  exc_info_true (exc_info record) && stack_info_true (stack_info record).

(** ** Sequences of calls *)

(** The logging library hands the filter one record after the other.  An
    exception leaves through the logging call that produced the record; the
    filter stays installed on the handler, with the assignments made before
    the exception, and sees the next record. *)
Fixpoint run (g : ChromaticaLogFilter) (calls : list (Env * LogRecord))
  : ChromaticaLogFilter :=
  match calls with
  | [] => g
  | (env, record) :: rest => run (after env g record) rest
  end.

(** The number of calls made on the Neovim handle for the records of one
    source. *)
Fixpoint notifications (source : string) (g : ChromaticaLogFilter)
    (calls : list (Env * LogRecord)) : nat :=
  match calls with
  | [] => 0%nat
  | (env, record) :: rest =>
      ((if bool_decide (name record = source)
        then length (notified env g record) else 0)
       + notifications source (after env g record) rest)%nat
  end.

(** The record takes the counter of [source] from 1 back to 0: it is a
    record of that source below [ERROR] that is not dropped as a repeat. *)
Definition resets_one (source : string) (env : Env) (g : ChromaticaLogFilter)
    (record : LogRecord) : bool :=
  bool_decide (name record = source)
  && negb (duplicate env g record)
  && bool_decide (levelno record < ERROR)
  && bool_decide (count g source = 1).

Fixpoint resets (source : string) (g : ChromaticaLogFilter)
    (calls : list (Env * LogRecord)) : nat :=
  match calls with
  | [] => 0%nat
  | (env, record) :: rest =>
      ((if resets_one source env g record then 1 else 0)
       + resets source (after env g record) rest)%nat
  end.

(** What is left of the two notifications of a source. *)
Definition budget (g : ChromaticaLogFilter) (source : string) : nat :=
  Z.to_nat (2 - count g source).

Definition counts_nonneg (g : ChromaticaLogFilter) : Prop :=
  ∀ source, 0 ≤ count g source.

(** ** Sample inputs *)

(** [logging.INFO] *)
Definition INFO : Z := 20.

(** A record as [logger.log(level, text)] builds it: no argument, no
    exception, no stack; its message is its text. *)
Definition plain (level : Z) (source text : string) : LogRecord :=
  {| levelno := level; name := source; msg := text; args := Some [];
     exc_info := None; stack_info := None; getMessage := Normal text |}.

(** A record as [logger.error(text, exc_info=True, stack_info=True)] builds
    it inside an [except ValueError] block. *)
Definition traced (source text : string) : LogRecord :=
  {| levelno := ERROR; name := source; msg := text; args := Some [];
     exc_info := Some {| exc_type := "ValueError"; exc_value := "bad token" |};
     stack_info := Some "Stack (most recent call last):";
     getMessage := Normal text |}.

(** A record built with [args] left to [None]. *)
Definition bare (level : Z) (source text : string) : LogRecord :=
  {| levelno := level; name := source; msg := text; args := None;
     exc_info := None; stack_info := None; getMessage := Normal text |}.

(** [logger.error("%d tokens", "three")]: the template asks for a number. *)
Definition misformatted (source : string) : LogRecord :=
  {| levelno := ERROR; name := source; msg := "%d tokens";
     args := Some [ArgStr "three"];
     exc_info := None; stack_info := None;
     getMessage :=
       Raise (TypeError "%d format: a real number is required, not str") |}.

(** Neovim answers; Neovim is gone and the client raises on every request. *)
Definition nvim_up (function argument : string) : Completion unit :=
  Normal tt.

Definition nvim_down (function argument : string) : Completion unit :=
  Raise (OSError "EOF").

Definition at_time (t : float) (vim : string → string → Completion unit)
  : Env :=
  {| time_time := t; vim_call := vim |}.

(** Five records of one source, one second apart: error, info, error, info,
    error. *)
Definition alternating : list (Env * LogRecord) :=
  [ (at_time 1700000000 nvim_up, plain ERROR "chromatica.parser" "a");
    (at_time 1700000001 nvim_up, plain INFO "chromatica.parser" "b");
    (at_time 1700000002 nvim_up, plain ERROR "chromatica.parser" "c");
    (at_time 1700000003 nvim_up, plain INFO "chromatica.parser" "d");
    (at_time 1700000004 nvim_up, plain ERROR "chromatica.parser" "e") ].

(** Three errors of one source, one second apart. *)
Definition in_succession : list (Env * LogRecord) :=
  [ (at_time 1700000000 nvim_up, plain ERROR "chromatica.parser" "a");
    (at_time 1700000001 nvim_up, plain ERROR "chromatica.parser" "b");
    (at_time 1700000002 nvim_up, plain ERROR "chromatica.parser" "c") ].

(** * The rest of [logger.py]: [getLogger], [setup], [logmethod], [LoggingMixin]

    These functions sit between the plugin and the [logging] library.  What
    they ask of the library and of Neovim is kept as a trace of calls; how
    each of those calls ends is given by the host of the run. *)

Module startup.

(** An exception leaving [setup] or a method of [LoggingMixin]: one of those
    the filter knows, or one more class.  [ImportError] stands for its
    subclasses too, which [except ImportError] catches as well. *)
Inductive Raised : Type :=
  | Builtin (e : PyExn)
  | ImportError (text : string)
  | DistributionNotFound (text : string)
  | AttributeError (text : string).

Inductive Ending (A : Type) : Type :=
  | Returns (a : A)
  | Raises (e : Raised).
Arguments Returns {A} a.
Arguments Raises {A} e.

(** [log_format] *)
Definition log_format : string :=
  "%(asctime)s %(levelname)-8s (%(name)s) %(message)s".

(** [root = logging.getLogger('chromatica')]; a logger is known by its
    name. *)
Definition root : string := "chromatica".

(** [root.getChild(name)]: the library names the child [root.name + '.' +
    name]. *)
Definition getLogger (name : string) : string :=
  root +:+ "." +:+ name.

(** [str.upper] as it acts on ASCII text: the letters a to z move to A to
    Z, nothing else moves. *)
Definition upper_char (c : Ascii.ascii) : Ascii.ascii :=
  let n := Ascii.N_of_ascii c in
  if (97 <=? n)%N && (n <=? 122)%N then Ascii.ascii_of_N (n - 32) else c.

Fixpoint str_upper (s : string) : string :=
  match s with
  | EmptyString => EmptyString
  | String c rest => String (upper_char c) (str_upper rest)
  end.

(** The text holds ASCII characters only, none above 127; [str_upper] is
    Python's [upper] on such text. *)
Fixpoint ascii_text (s : string) : bool :=
  match s with
  | EmptyString => true
  | String c rest => (Ascii.N_of_ascii c <? 128)%N && ascii_text rest
  end.

(** The text is made of decimal digits, as [str] of a natural number is. *)
Fixpoint digits (s : string) : bool :=
  match s with
  | EmptyString => true
  | String c rest =>
      (48 <=? Ascii.N_of_ascii c)%N && (Ascii.N_of_ascii c <=? 57)%N
      && digits rest
  end.

(** The tuple of line 44. *)
Definition level_names : list string :=
  ["DEBUG"; "INFO"; "WARN"; "WARNING"; "ERROR"; "CRITICAL"; "FATAL"].

(** Lines 43 to 46: the attribute of [logging] that line 47 reads, for a
    level given in ASCII text, where [str_upper] is [str.upper]. *)
Definition level_name (level : string) : string :=
  let level := str_upper level in
  if bool_decide (level ∈ level_names) then level else "DEBUG".

(** [getattr(logging, attribute)] where the attribute is one of the level
    constants of the module; [None] stands for every other attribute. *)
Definition logging_getattr (attribute : string) : option Z :=
  if bool_decide (attribute = "CRITICAL") then Some 50
  else if bool_decide (attribute = "FATAL") then Some 50
  else if bool_decide (attribute = "ERROR") then Some 40
  else if bool_decide (attribute = "WARNING") then Some 30
  else if bool_decide (attribute = "WARN") then Some 30
  else if bool_decide (attribute = "INFO") then Some 20
  else if bool_decide (attribute = "DEBUG") then Some 10
  else if bool_decide (attribute = "NOTSET") then Some 0
  else None.

(** What [setup] asks of the library and of Neovim, in the order asked. *)
Inductive Event : Type :=
  | FileHandler (filename : string)
  | setFormatter (fmt : string)
  | addFilter (f : ChromaticaLogFilter)
  | addHandler
  | setLevel (level : Z)
  | log_info (logger : string) (msg : string) (args : list PyArg)
  | vim_call (function : string) (args : list string).

(** How the calls that can fail end, and what the interpreter is:
    [logging.FileHandler(filename=...)] opens the file; the body of the
    [try] of lines 50-51 imports [pkg_resources] and reads the version of
    the distribution [neovim]; [sys.version_info[:3]]; [log.info]; and
    [vim.call], which returns the value of the Vim function. *)
Record Host : Type := {
  open_handler : string → Ending unit;
  neovim_distribution : Ending string;
  version_info : N * N * N;
  logger_info : string → string → list PyArg → Ending unit;
  nvim : string → list string → Ending string
}.

(** The global [init] of the module, and the calls made so far. *)
Record Process : Type := {
  init : bool;
  trace : list Event
}.

Definition Script (A : Type) : Type := Host → Process → Ending A * Process.

#[global] Instance Script_ret : MRet Script :=
  λ A a _ p, (Returns a, p).

#[global] Instance Script_bind : MBind Script :=
  λ A B k m host p,
    match m host p with
    | (Returns a, p') => k a host p'
    | (Raises e, p') => (Raises e, p')
    end.

Definition get_init : Script bool :=
  λ _ p, (Returns (init p), p).

Definition set_init (b : bool) : Script unit :=
  λ _ p, (Returns tt, {| init := b; trace := trace p |}).

(** A call that cannot fail. *)
Definition call (e : Event) : Script unit :=
  λ _ p, (Returns tt, {| init := init p; trace := trace p ++ [e] |}).

(** A call that ends as the host says. *)
Definition call_host {A : Type} (e : Event) (ending : Host → Ending A)
  : Script A :=
  λ host p, (ending host, {| init := init p; trace := trace p ++ [e] |}).

Definition raise {A : Type} (e : Raised) : Script A :=
  λ _ p, (Raises e, p).

(** Lines 49-53. *)
Definition try_neovim_version : Script string :=
  λ host p,
    match neovim_distribution host with
    | Returns version => (Returns version, p)
    | Raises (ImportError _) => (Returns "unknown", p)
    | Raises e => (Raises e, p)
    end.

(** ['.'.join(map(str, sys.version_info[:3]))] *)
Definition python_version : Script string :=
  λ host p,
    let '(major, minor, micro) := version_info host in
    (Returns (pretty major +:+ "." +:+ pretty minor +:+ "." +:+ pretty micro),
     p).

(** [setup(vim, level, output_file=None)]; [level] is the text
    [str(level)], [vim] is the handle the host answers for. *)
Definition setup (level : string) (output_file : option string)
  : Script unit :=
  started ← get_init;
  if (started : bool) then mret tt
  else
    set_init true;;
    match output_file with
    | Some (String c rest as filename) =>
        call_host (FileHandler filename) (λ host, open_handler host filename);;
        call (setFormatter log_format);;
        call (addFilter __init__);;
        call addHandler;;
        match logging_getattr (level_name level) with
        | None =>
            raise (AttributeError
                     ("module 'logging' has no attribute '"
                      +:+ level_name level +:+ "'"))
        | Some number => call (setLevel number)
        end;;
        neovim_version ← try_neovim_version;
        let log := getLogger "logging" in
        call_host (log_info log "--- Chromatica Log Start ---" [])
          (λ host, logger_info host log "--- Chromatica Log Start ---" []);;
        editor ← call_host (vim_call "chromatica#util#neovim_version" [])
                   (λ host, nvim host "chromatica#util#neovim_version" []);
        interpreter ← python_version;
        let args := [ArgStr editor; ArgStr interpreter;
                     ArgStr neovim_version] in
        call_host
          (log_info log "%s, Python %s, neovim client %s" args)
          (λ host,
             logger_info host log "%s, Python %s, neovim client %s" args);;
        call_host
          (vim_call "chromatica#util#print_warning"
             ["Logging to " +:+ filename])
          (λ host,
             nvim host "chromatica#util#print_warning"
               ["Logging to " +:+ filename]);;
        mret tt
    | _ => mret tt
    end.

(** [setup] called again and again by the plugin, each call with its
    arguments and its host. *)
Fixpoint setups (calls : list (string * option string * Host)) (p : Process)
  : Process :=
  match calls with
  | [] => p
  | (level, output_file, host) :: rest =>
      setups rest (snd (setup level output_file host p))
  end.

(** How each of the calls ends. *)
Fixpoint endings (calls : list (string * option string * Host)) (p : Process)
  : list (Ending unit) :=
  match calls with
  | [] => []
  | (level, output_file, host) :: rest =>
      fst (setup level output_file host p)
      :: endings rest (snd (setup level output_file host p))
  end.

(** The number of handlers put on [root]. *)
Definition is_addHandler (e : Event) : bool :=
  match e with
  | addHandler => true
  | _ => false
  end.

Definition handlers_added (p : Process) : nat :=
  length (List.filter is_addHandler (trace p)).

(** The module as imported: [init = False], nothing asked yet. *)
Definition imported : Process := {| init := false; trace := [] |}.

(** A host on which everything works, and three on which one thing does
    not. *)
Definition working : Host :=
  {| open_handler := λ _, Returns tt;
     neovim_distribution := Returns "0.3.1";
     version_info := (3, 10, 12)%N;
     logger_info := λ _ _ _, Returns tt;
     nvim := λ function _,
       if bool_decide (function = "chromatica#util#neovim_version")
       then Returns "NVIM v0.9.5" else Returns "0" |}.

Definition read_only_directory : Host :=
  {| open_handler := λ _, Raises (Builtin (OSError "Permission denied"));
     neovim_distribution := neovim_distribution working;
     version_info := version_info working;
     logger_info := logger_info working;
     nvim := nvim working |}.

Definition without_pkg_resources : Host :=
  {| open_handler := open_handler working;
     neovim_distribution := Raises (ImportError "No module named 'pkg_resources'");
     version_info := version_info working;
     logger_info := logger_info working;
     nvim := nvim working |}.

Definition client_named_pynvim : Host :=
  {| open_handler := open_handler working;
     neovim_distribution :=
       Raises (DistributionNotFound "The 'neovim' distribution was not found");
     version_info := version_info working;
     logger_info := logger_info working;
     nvim := nvim working |}.

End startup.

Module mixin.

Import startup.

(** Keyword arguments handed on to the library, by name. *)
Definition Kwargs : Type := list (string * PyArg).

(** An object of a class that inherits [LoggingMixin]: the attributes
    [debug_enabled] and [_logger], which start as the class has them, and
    [name], which the object may lack. *)
Record LoggingMixin : Type := {
  debug_enabled : bool;
  _logger : option string;
  name : option string
}.

(** The class attributes [debug_enabled = False] and [_logger = None]. *)
Definition created (name : option string) : LoggingMixin :=
  {| debug_enabled := false; _logger := None; name := name |}.

(** One call of a method of a logger: [logger.method(msg, *args,
    **kwargs)]. *)
Record LoggerCall : Type := {
  logger : string;
  method : string;
  msg : string;
  args : list PyArg;
  kwargs : Kwargs
}.

(** What a method call finds: the global [init] of the module, and how a
    call into the library ends (the filter may raise in there). *)
Record Context : Type := {
  init : bool;
  library : LoggerCall → Ending unit
}.

(** The object, and the calls made into the library so far. *)
Record World : Type := {
  self : LoggingMixin;
  logged : list LoggerCall
}.

Definition Method : Type :=
  string → list PyArg → Kwargs → Context → World → Ending unit * World.

(** [self._logger.<method>(msg, *args, **kwargs)], the body of the six
    methods. *)
Definition forward (method : string) : Method :=
  λ msg args kwargs context w,
    match _logger (self w) with
    | None =>
        (Raises (AttributeError
                   ("'NoneType' object has no attribute '"
                    +:+ method +:+ "'")),
         w)
    | Some l =>
        let c := {| logger := l; method := method; msg := msg;
                    args := args; kwargs := kwargs |} in
        (library context c, {| self := self w; logged := logged w ++ [c] |})
    end.

(** [getattr(self, 'name', 'unknown')] *)
Definition name_or_unknown (o : LoggingMixin) : string :=
  default "unknown" (name o).

(** [logmethod(func)]: the wrapper that replaces [func]. *)
Definition logmethod (func : Method) : Method :=
  λ msg args kwargs context w,
    if negb (init context) || negb (debug_enabled (self w))
    then (Returns tt, w)
    else
      let w :=
        match _logger (self w) with
        | None =>
            {| self := {| debug_enabled := debug_enabled (self w);
                          _logger := Some (getLogger (name_or_unknown (self w)));
                          name := name (self w) |};
               logged := logged w |}
        | Some _ => w
        end in
      func msg args kwargs context w.

Definition debug : Method := logmethod (forward "debug").
Definition info : Method := logmethod (forward "info").
Definition warning : Method := logmethod (forward "warning").
Definition warn : Method := warning.
Definition error : Method := logmethod (forward "error").
Definition exception : Method := logmethod (forward "exception").
Definition critical : Method := logmethod (forward "critical").
Definition fatal : Method := critical.

(** The eight methods of the class, by attribute name. *)
Definition methods : list (string * Method) :=
  [ ("debug", debug); ("info", info); ("warning", warning); ("warn", warn);
    ("error", error); ("exception", exception); ("critical", critical);
    ("fatal", fatal) ].

(** What happens to an object over time: the plugin assigns [name] or
    [debug_enabled], or calls one of the methods. *)
Inductive Step : Type :=
  | assign_name (n : option string)
  | assign_debug_enabled (b : bool)
  | invoke (m : Method) (msg : string) (args : list PyArg) (kwargs : Kwargs)
      (context : Context).

Definition step (s : Step) (w : World) : World :=
  match s with
  | assign_name n =>
      {| self := {| debug_enabled := debug_enabled (self w);
                    _logger := _logger (self w);
                    name := n |};
         logged := logged w |}
  | assign_debug_enabled b =>
      {| self := {| debug_enabled := b;
                    _logger := _logger (self w);
                    name := name (self w) |};
         logged := logged w |}
  | invoke m msg args kwargs context =>
      snd (m msg args kwargs context w)
  end.

Definition steps (l : list Step) (w : World) : World :=
  foldl (λ w s, step s w) w l.

(** The step calls one of the methods of the class. *)
Definition of_class (s : Step) : Prop :=
  match s with
  | invoke m _ _ _ _ => ∃ attribute, (attribute, m) ∈ methods
  | _ => True
  end.

(** A parser object of the plugin, and a library in which the filter lets
    an exception of Neovim through. *)
Definition parser : LoggingMixin :=
  {| debug_enabled := true; _logger := None; name := Some "parser" |}.

Definition quiet_library (c : LoggerCall) : Ending unit := Returns tt.

Definition failing_library (c : LoggerCall) : Ending unit :=
  Raises (Builtin (OSError "EOF")).

(** The parser logs an error, is renamed, and logs again. *)
Definition renamed : list Step :=
  [ invoke error "no compilation database" [] []
      {| init := true; library := quiet_library |};
    assign_name (Some "highlight");
    invoke info "retrying" [] []
      {| init := true; library := quiet_library |} ].

End mixin.

(** ** More vocabulary for [filter] *)

(** The verdicts of a sequence of calls, in order. *)
Fixpoint verdicts (g : ChromaticaLogFilter) (calls : list (Env * LogRecord))
  : list (Completion bool) :=
  match calls with
  | [] => []
  | (env, record) :: rest =>
      verdict env g record :: verdicts (after env g record) rest
  end.

(** Each reading of the clock is less than the cooldown after the one
    before it, the first of them after [previous]. *)
Fixpoint steady (previous : float) (times : list float) : bool :=
  match times with
  | [] => true
  | t :: rest =>
      (t - previous <? log_message_cooldown)%float && steady t rest
  end.

(** One record handed over again and again. *)
Definition again (record : LogRecord) (envs : list Env)
  : list (Env * LogRecord) :=
  map (λ env, (env, record)) envs.

(** An error stored in [last_message] has been counted. *)
Definition stored_error_counted (g : ChromaticaLogFilter) : Prop :=
  ∀ level source text arguments,
    last_message g = Some (level, source, text, arguments) →
    ERROR ≤ level → 1 ≤ count g source.

(** Four calls with one record, a quarter of a second apart. *)
Definition quarter_seconds : list Env :=
  [ at_time 1700000000.25 nvim_up; at_time 1700000000.5 nvim_up;
    at_time 1700000000.75 nvim_up; at_time 1700000001 nvim_up ].

(** * Properties *)

(** ** One call, branch by branch *)

Ltac run_filter :=
  unfold evaluate, filter, counter_iadd, counter_getitem, counter_setitem,
    when, call_getMessage, call_vim_call, call_time_time,
    get_last_message_time, set_last_message_time, get_last_message,
    set_last_message, get_counter, set_counter, mbind, mret, Action_bind,
    Action_ret;
  cbn.

Ltac split_filter :=
  repeat first
    [ progress cbn
    | rewrite insert_insert_eq
    | rewrite lookup_insert_eq
    | match goal with
      | E : ?m !! ?k = _ |- context [?m !! ?k] => rewrite E
      | |- context [bool_decide ?P] => case_bool_decide; try lia
      | |- context [getMessage ?r] => destruct (getMessage r)
      | |- context [vim_call ?e ?f ?a] => destruct (vim_call e f a)
      | |- context [exc_info_true ?x] => destruct (exc_info_true x)
      | |- context [stack_info_true ?x] => destruct (stack_info_true x)
      end ].

(** The test of line 128 is [duplicate]. *)
Lemma duplicate_test env g r :
  bool_decide (Some (levelno r, name r, msg r, args r) = last_message g)
  && (time_time env - last_message_time g <? log_message_cooldown)%float
  = duplicate env g r.
Proof.
  unfold duplicate, message_of. f_equal.
  apply bool_decide_ext. split; intros H; symmetry; exact H.
Qed.

(** Lines 128-130. *)
Lemma evaluate_duplicate env g r :
  duplicate env g r = true →
  evaluate env g r =
    (Normal false,
     {| self := {| counter := counter g;
                   last_message_time := time_time env;
                   last_message := last_message g |};
        vim_calls := [] |}).
Proof.
  intros Hd. run_filter. rewrite duplicate_test, Hd. reflexivity.
Qed.

(** Lines 144-148. *)
Lemma evaluate_below env g r :
  duplicate env g r = false → levelno r < ERROR →
  evaluate env g r =
    (Normal true,
     {| self := {| counter := if bool_decide (count g (name r) < 2)
                              then <[name r := 0]> (counter g)
                              else counter g;
                   last_message_time := time_time env;
                   last_message := Some (message_of r) |};
        vim_calls := [] |}).
Proof.
  intros Hd Hl. run_filter. rewrite duplicate_test, Hd.
  rewrite bool_decide_eq_false_2 by lia. unfold count.
  destruct (counter g !! name r) as [v|] eqn:E; split_filter; reflexivity.
Qed.

(** Lines 133-143 and 148. *)
Lemma evaluate_error env g r :
  duplicate env g r = false → ERROR ≤ levelno r →
  evaluate env g r =
    let c := count g (name r) + 1 in
    let obj m := {| counter := m;
                    last_message_time := time_time env;
                    last_message := Some (message_of r) |} in
    let once := <[name r := c]> (counter g) in
    let twice := <[name r := c + 1]> (counter g) in
    let final := if penalty r then twice else once in
    if bool_decide (c ≤ 2) then
      match getMessage r with
      | Raise e => (Raise e, {| self := obj once; vim_calls := [] |})
      | Normal text =>
          let sent := [("chromatica#util#print_error", text)] in
          match vim_call env "chromatica#util#print_error" text with
          | Raise e => (Raise e, {| self := obj once; vim_calls := sent |})
          | Normal _ => (Normal true, {| self := obj final; vim_calls := sent |})
          end
      end
    else (Normal true, {| self := obj final; vim_calls := [] |}).
Proof.
  intros Hd Hl. run_filter. rewrite duplicate_test, Hd.
  rewrite bool_decide_eq_true_2 by lia. unfold count, penalty.
  destruct (counter g !! name r) as [v|] eqn:E; split_filter;
    try reflexivity; exfalso; lia.
Qed.

(** Every call goes through one of the three branches above. *)
Ltac by_branch env g r :=
  let Hd := fresh "Hd" in
  let Hl := fresh "Hl" in
  unfold verdict, after, notified;
  destruct (duplicate env g r) eqn:Hd;
  [ rewrite (evaluate_duplicate env g r Hd)
  | destruct (Z.lt_ge_cases (levelno r) ERROR) as [Hl|Hl];
    [ rewrite (evaluate_below env g r Hd Hl)
    | rewrite (evaluate_error env g r Hd Hl) ] ];
  cbn.

Ltac split_print_error :=
  unfold print_error;
  repeat match goal with
    | |- context [bool_decide ?P] => case_bool_decide; try lia
    | |- context [getMessage ?r] => destruct (getMessage r) eqn:?
    | |- context [vim_call ?e ?f ?a] => destruct (vim_call e f a) eqn:?
    | |- context [penalty ?r] => destruct (penalty r) eqn:?
    end;
  cbn.

Lemma count_insert m t l k v s :
  count {| counter := <[k := v]> m; last_message_time := t;
           last_message := l |} s
  = if decide (k = s) then v else default 0 (m !! s).
Proof.
  unfold count; cbn. rewrite lookup_insert. destruct (decide (k = s)); reflexivity.
Qed.

Lemma count_insert_same m t l k v :
  count {| counter := <[k := v]> m; last_message_time := t;
           last_message := l |} k = v.
Proof. rewrite count_insert. case_decide; congruence. Qed.

Lemma after_time env g r :
  last_message_time (after env g r) = time_time env.
Proof. by_branch env g r; split_print_error; reflexivity. Qed.

Lemma count_other env g r s :
  s ≠ name r → count (after env g r) s = count g s.
Proof.
  intros Hs. by_branch env g r; split_print_error;
    rewrite ?count_insert; try case_decide; try congruence; reflexivity.
Qed.

Lemma verdict_eq env g r :
  verdict env g r =
    if duplicate env g r then Normal false
    else if bool_decide (ERROR ≤ levelno r ∧ count g (name r) + 1 ≤ 2)
    then match print_error env r with
         | Normal _ => Normal true
         | Raise e => Raise e
         end
    else Normal true.
Proof.
  by_branch env g r; try reflexivity.
  - rewrite bool_decide_eq_false_2 by lia. reflexivity.
  - split_print_error; try reflexivity; tauto.
Qed.

Lemma notified_eq env g r :
  notified env g r =
    if negb (duplicate env g r)
       && bool_decide (ERROR ≤ levelno r ∧ count g (name r) + 1 ≤ 2)
    then match getMessage r with
         | Normal text => [("chromatica#util#print_error", text)]
         | Raise _ => []
         end
    else [].
Proof.
  by_branch env g r; try reflexivity.
  - rewrite bool_decide_eq_false_2 by lia. reflexivity.
  - split_print_error; try reflexivity; tauto.
Qed.

Lemma count_after env g r :
  count (after env g r) (name r) =
    let c := count g (name r) in
    if duplicate env g r then c
    else if bool_decide (ERROR ≤ levelno r) then
      match verdict env g r with
      | Normal _ => if penalty r then c + 2 else c + 1
      | Raise _ => c + 1
      end
    else if bool_decide (c < 2) then 0 else c.
Proof.
  rewrite verdict_eq.
  by_branch env g r; try reflexivity.
  - rewrite (bool_decide_eq_false_2 (ERROR ≤ levelno r)) by lia.
    case_bool_decide; [apply count_insert_same | reflexivity].
  - rewrite (bool_decide_eq_true_2 (ERROR ≤ levelno r)) by lia.
    split_print_error; rewrite ?count_insert_same;
      first [ reflexivity | lia | tauto ].
Qed.

(** ** The verdict *)

(** C1 (as amended).  The verdict is [False] exactly when the signature of
    the record equals [last_message] and the time elapsed since the previous
    call is below 0.5 s.  In every other case the call returns [True],
    unless it reaches line 139 (a record at [ERROR] or above whose source
    counts at most 2 after the increment) and formatting the message or the
    Neovim call raises: that exception leaves [filter], which returns no
    verdict. *)
Theorem filter_verdict env g r :
  (verdict env g r = Normal false ↔
     last_message g = Some (message_of r)
     ∧ (time_time env - last_message_time g <? 0.5)%float = true)
  ∧ (¬ (last_message g = Some (message_of r)
        ∧ (time_time env - last_message_time g <? 0.5)%float = true) →
     verdict env g r =
       if bool_decide (ERROR ≤ levelno r ∧ count g (name r) + 1 ≤ 2)
       then match print_error env r with
            | Normal _ => Normal true
            | Raise e => Raise e
            end
       else Normal true).
Proof.
  assert (Hdup : duplicate env g r = true ↔
                 last_message g = Some (message_of r)
                 ∧ (time_time env - last_message_time g <? 0.5)%float = true).
  { unfold duplicate. rewrite andb_true_iff, bool_decide_eq_true. reflexivity. }
  rewrite verdict_eq. split.
  - rewrite <- Hdup. destruct (duplicate env g r).
    + split; reflexivity.
    + split; [|discriminate]. case_bool_decide; [|discriminate].
      destruct (print_error env r); discriminate.
  - intros Hn. destruct (duplicate env g r); [|reflexivity].
    exfalso. apply Hn, Hdup. reflexivity.
Qed.

(** C1, at the second of two records that differ. *)
Lemma filter_verdict_witness :
  ¬ (last_message (after (at_time 1700000000 nvim_up) __init__
                     (plain INFO "chromatica.parser" "start"))
       = Some (message_of (plain INFO "chromatica.parser" "done"))
     ∧ (1700000000.25 - 1700000000 <? 0.5)%float = true)
  ∧ verdict (at_time 1700000000.25 nvim_up)
      (after (at_time 1700000000 nvim_up) __init__
         (plain INFO "chromatica.parser" "start"))
      (plain INFO "chromatica.parser" "done") = Normal true.
Proof.
  assert (H : ¬ (last_message (after (at_time 1700000000 nvim_up) __init__
                     (plain INFO "chromatica.parser" "start"))
       = Some (message_of (plain INFO "chromatica.parser" "done"))
     ∧ (1700000000.25 - 1700000000 <? 0.5)%float = true)).
  { intros [H _]. vm_compute in H. discriminate H. }
  split; [exact H|].
  exact (proj2 (filter_verdict (at_time 1700000000.25 nvim_up) _ _) H).
Defined.

(** C1 as first stated fails: an [ERROR] record that is no repeat, handed
    over while Neovim is gone, gets no verdict. *)
Lemma filter_verdict_not_always_true :
  duplicate (at_time 1700000000 nvim_down) __init__
    (plain ERROR "chromatica.parser" "no compilation database") = false
  ∧ verdict (at_time 1700000000 nvim_down) __init__
      (plain ERROR "chromatica.parser" "no compilation database")
    = Raise (OSError "EOF").
Proof. split; vm_compute; reflexivity. Qed.

(** The same record twice: dropped 0.25 s after the first, passed again
    0.5 s after it, the comparison of line 128 being strict. *)
Example repeat_within_cooldown :
  verdict (at_time 1700000000.25 nvim_up)
    (after (at_time 1700000000 nvim_up) __init__
       (plain INFO "chromatica.parser" "start"))
    (plain INFO "chromatica.parser" "start") = Normal false.
Proof. vm_compute. reflexivity. Qed.

Example repeat_after_cooldown :
  verdict (at_time 1700000000.5 nvim_up)
    (after (at_time 1700000000 nvim_up) __init__
       (plain INFO "chromatica.parser" "start"))
    (plain INFO "chromatica.parser" "start") = Normal true.
Proof. vm_compute. reflexivity. Qed.

(** C10 (as amended).  The first record a freshly built filter sees is never
    dropped as a repeat, whatever it holds: [last_message] is [None], which
    equals no signature.  It gets the verdict [True], unless it is at
    [ERROR] or above and formatting its message or the Neovim call raises,
    which ends the call with that exception. *)
Theorem first_record_verdict env r :
  last_message __init__ ≠ Some (message_of r)
  ∧ duplicate env __init__ r = false
  ∧ verdict env __init__ r ≠ Normal false
  ∧ verdict env __init__ r =
      if bool_decide (ERROR ≤ levelno r)
      then match print_error env r with
           | Normal _ => Normal true
           | Raise e => Raise e
           end
      else Normal true.
Proof.
  assert (Hd : duplicate env __init__ r = false) by reflexivity.
  assert (Hv : verdict env __init__ r =
      if bool_decide (ERROR ≤ levelno r)
      then match print_error env r with
           | Normal _ => Normal true
           | Raise e => Raise e
           end
      else Normal true).
  { rewrite verdict_eq, Hd. change (count __init__ (name r)) with 0.
    rewrite (bool_decide_ext (ERROR ≤ levelno r ∧ 0 + 1 ≤ 2) (ERROR ≤ levelno r))
      by lia.
    reflexivity. }
  split; [discriminate|]. split; [exact Hd|]. split; [|exact Hv].
  rewrite Hv. case_bool_decide; [|discriminate].
  destruct (print_error env r); discriminate.
Qed.

(** C10 as first stated fails: the first record, an error whose template
    does not fit its argument, gets no verdict. *)
Lemma first_record_not_always_true :
  verdict (at_time 1700000000 nvim_up) __init__
    (misformatted "chromatica.syntax")
  = Raise (TypeError "%d format: a real number is required, not str").
Proof. vm_compute. reflexivity. Qed.

(** ** The counters *)

(** C5.  A record below [ERROR] that is not dropped as a repeat puts the
    count of its source back to 0 when that count is below 2 and leaves it
    alone when it is 2 or more: a count of 1 becomes 0, a count of 2 stays.
    The other sources keep their counts, the verdict is [True] and Neovim is
    not called. *)
Theorem below_error_resets_under_two env g r :
  duplicate env g r = false → levelno r < ERROR →
  count (after env g r) (name r)
    = (if bool_decide (count g (name r) < 2) then 0 else count g (name r))
  ∧ (count g (name r) = 1 → count (after env g r) (name r) = 0)
  ∧ (count g (name r) = 2 → count (after env g r) (name r) = 2)
  ∧ (∀ source, source ≠ name r →
       count (after env g r) source = count g source)
  ∧ verdict env g r = Normal true
  ∧ notified env g r = [].
Proof.
  intros Hd Hl.
  assert (Hc : count (after env g r) (name r)
    = (if bool_decide (count g (name r) < 2) then 0 else count g (name r))).
  { rewrite count_after, Hd. cbn.
    rewrite (bool_decide_eq_false_2 (ERROR ≤ levelno r)) by lia. reflexivity. }
  repeat split.
  - exact Hc.
  - intros H1. rewrite Hc, H1. reflexivity.
  - intros H2. rewrite Hc, H2. reflexivity.
  - intros source Hs. apply count_other, Hs.
  - rewrite verdict_eq, Hd, bool_decide_eq_false_2 by lia. reflexivity.
  - rewrite notified_eq, Hd, bool_decide_eq_false_2 by lia. reflexivity.
Qed.

(** C5, at an [INFO] record that follows one error of the same source. *)
Lemma below_error_resets_under_two_witness :
  (duplicate (at_time 1700000001 nvim_up)
     (after (at_time 1700000000 nvim_up) __init__
        (plain ERROR "chromatica.parser" "no compilation database"))
     (plain INFO "chromatica.parser" "retrying") = false
   ∧ levelno (plain INFO "chromatica.parser" "retrying") < ERROR
   ∧ count (after (at_time 1700000000 nvim_up) __init__
              (plain ERROR "chromatica.parser" "no compilation database"))
       "chromatica.parser" = 1)
  ∧ count (after (at_time 1700000001 nvim_up)
             (after (at_time 1700000000 nvim_up) __init__
                (plain ERROR "chromatica.parser" "no compilation database"))
             (plain INFO "chromatica.parser" "retrying"))
      "chromatica.parser" = 0.
Proof.
  assert (Hd : duplicate (at_time 1700000001 nvim_up)
     (after (at_time 1700000000 nvim_up) __init__
        (plain ERROR "chromatica.parser" "no compilation database"))
     (plain INFO "chromatica.parser" "retrying") = false)
    by (vm_compute; reflexivity).
  assert (Hl : levelno (plain INFO "chromatica.parser" "retrying") < ERROR)
    by (vm_compute; reflexivity).
  assert (H1 : count (after (at_time 1700000000 nvim_up) __init__
              (plain ERROR "chromatica.parser" "no compilation database"))
       "chromatica.parser" = 1)
    by (vm_compute; reflexivity).
  split; [exact (conj Hd (conj Hl H1))|].
  exact (proj1 (proj2 (below_error_resets_under_two _ _ _ Hd Hl)) H1).
Defined.

(** C6.  Every call stores the reading of the clock in
    [last_message_time], whatever becomes of the record.  A call that drops
    its record as a repeat changes nothing else: [counter] and
    [last_message] are what they were, and Neovim is not called. *)
Theorem suppressed_changes_time_only env g r :
  last_message_time (after env g r) = time_time env
  ∧ (verdict env g r = Normal false →
     counter (after env g r) = counter g
     ∧ last_message (after env g r) = last_message g
     ∧ notified env g r = []).
Proof.
  split; [apply after_time|].
  rewrite verdict_eq. intros Hv.
  destruct (duplicate env g r) eqn:Hd.
  - unfold after, notified. rewrite (evaluate_duplicate env g r Hd).
    repeat split.
  - exfalso. revert Hv. case_bool_decide; [|discriminate].
    destruct (print_error env r); discriminate.
Qed.

(** C6, at the second of two equal errors 0.125 s apart. *)
Lemma suppressed_changes_time_only_witness :
  verdict (at_time 1700000000.125 nvim_up)
    (after (at_time 1700000000 nvim_up) __init__
       (plain ERROR "chromatica.parser" "x"))
    (plain ERROR "chromatica.parser" "x") = Normal false
  ∧ count (after (at_time 1700000000.125 nvim_up)
             (after (at_time 1700000000 nvim_up) __init__
                (plain ERROR "chromatica.parser" "x"))
             (plain ERROR "chromatica.parser" "x")) "chromatica.parser" = 1
  ∧ counter (after (at_time 1700000000.125 nvim_up)
               (after (at_time 1700000000 nvim_up) __init__
                  (plain ERROR "chromatica.parser" "x"))
               (plain ERROR "chromatica.parser" "x"))
    = counter (after (at_time 1700000000 nvim_up) __init__
                 (plain ERROR "chromatica.parser" "x")).
Proof.
  assert (Hv : verdict (at_time 1700000000.125 nvim_up)
    (after (at_time 1700000000 nvim_up) __init__
       (plain ERROR "chromatica.parser" "x"))
    (plain ERROR "chromatica.parser" "x") = Normal false)
    by (vm_compute; reflexivity).
  pose proof (proj1 (proj2 (suppressed_changes_time_only _ _ _) Hv)) as Hc.
  split; [exact Hv|]. split; [|exact Hc].
  unfold count. rewrite Hc. vm_compute. reflexivity.
Defined.

(** ** Exceptions *)

(** C7 (as amended).  [filter] has no handler around line 139.  When the
    Neovim call made for a record at [ERROR] or above raises, the exception
    leaves [filter] and no verdict is returned.  The object is then as the
    statements before the call left it: the count of the source is one more
    than before (the second increment of line 143 is not reached), the other
    counts are untouched, [last_message] and [last_message_time] are those
    of this record. *)
Theorem failed_notification_propagates env g r text e :
  duplicate env g r = false →
  ERROR ≤ levelno r →
  count g (name r) + 1 ≤ 2 →
  getMessage r = Normal text →
  vim_call env "chromatica#util#print_error" text = Raise e →
  verdict env g r = Raise e
  ∧ notified env g r = [("chromatica#util#print_error", text)]
  ∧ counter (after env g r) = <[name r := count g (name r) + 1]> (counter g)
  ∧ count (after env g r) (name r) = count g (name r) + 1
  ∧ (∀ source, source ≠ name r →
       count (after env g r) source = count g source)
  ∧ last_message (after env g r) = Some (message_of r)
  ∧ last_message_time (after env g r) = time_time env.
Proof.
  intros Hd Hl Hc Hm Hv.
  pose proof (count_other env g r) as Hother.
  unfold verdict, notified, after in *.
  rewrite (evaluate_error env g r Hd Hl) in *. cbn in *.
  rewrite bool_decide_eq_true_2 in * by exact Hc.
  rewrite Hm, Hv in *. cbn in *.
  repeat split; try reflexivity.
  - apply count_insert_same.
  - exact Hother.
Qed.

(** C7, at a traced error handed over while Neovim is gone. *)
Lemma failed_notification_propagates_witness :
  verdict (at_time 1700000000 nvim_down) __init__
    (traced "chromatica.highlight" "token out of range")
  = Raise (OSError "EOF")
  ∧ count (after (at_time 1700000000 nvim_down) __init__
             (traced "chromatica.highlight" "token out of range"))
      "chromatica.highlight" = 0 + 1.
Proof.
  pose proof (failed_notification_propagates
                (at_time 1700000000 nvim_down) __init__
                (traced "chromatica.highlight" "token out of range")
                "token out of range" (OSError "EOF")
                eq_refl ltac:(vm_compute; discriminate)
                ltac:(vm_compute; discriminate) eq_refl eq_refl) as H.
  split; [exact (proj1 H)|].
  exact (proj1 (proj2 (proj2 (proj2 H)))).
Defined.

(** C7 as first stated fails: the exception of the Neovim call is not
    swallowed, the call returns no verdict. *)
Lemma failed_notification_not_swallowed :
  vim_call (at_time 1700000000 nvim_down) "chromatica#util#print_error"
    "clang failed" = Raise (OSError "EOF")
  ∧ notified (at_time 1700000000 nvim_down) __init__
      (plain ERROR "chromatica.clang" "clang failed")
    = [("chromatica#util#print_error", "clang failed")]
  ∧ verdict (at_time 1700000000 nvim_down) __init__
      (plain ERROR "chromatica.clang" "clang failed")
    ≠ Normal true.
Proof.
  split; [reflexivity|]. split; [vm_compute; reflexivity|].
  vm_compute. discriminate.
Qed.

(** [self.counter[key]] never raises [KeyError]: it reads 0 at a key the
    dictionary does not hold. *)
Lemma counter_getitem_total key env w :
  fst (counter_getitem key env w) = Normal (count (self w) key).
Proof.
  unfold counter_getitem, get_counter, set_counter, count, mbind, mret,
    Action_bind, Action_ret.
  destruct (counter (self w) !! key); reflexivity.
Qed.

(** C8 (as amended).  The bookkeeping of [filter] never faults: reading
    [counter] at a source it has never seen gives 0, and absent arguments,
    exception or stack information take the branches written for them.  A
    call returns a verdict on every record and every object, except when it
    reaches line 139 (the record is no repeat, is at [ERROR] or above, and
    its source counts at most 2 after the increment) and formatting the
    message or the Neovim call raises; then, and only then, the call ends
    with that exception. *)
Theorem filter_returns_unless_print_error_raises env g r :
  (∀ e, verdict env g r = Raise e ↔
     duplicate env g r = false
     ∧ ERROR ≤ levelno r
     ∧ count g (name r) + 1 ≤ 2
     ∧ print_error env r = Raise e)
  ∧ ((∃ b, verdict env g r = Normal b) ↔
     ¬ (duplicate env g r = false
        ∧ ERROR ≤ levelno r
        ∧ count g (name r) + 1 ≤ 2
        ∧ ∃ e, print_error env r = Raise e))
  ∧ (print_error env r = Normal tt → ∃ b, verdict env g r = Normal b)
  ∧ (∀ w, fst (counter_getitem (name r) env w)
          = Normal (count (self w) (name r))).
Proof.
  split; [|split; [|split]].
  - intros e. rewrite verdict_eq.
    destruct (duplicate env g r).
    { split; [discriminate|]. intros (H & _); discriminate H. }
    case_bool_decide as Hc.
    + destruct (print_error env r) as [u|e0].
      * split; [discriminate|]. intros (_ & _ & _ & H); discriminate H.
      * split; [intros [= ->]; tauto|].
        intros (_ & _ & _ & [= ->]); reflexivity.
    + split; [discriminate|]. intros (_ & H1 & H2 & _). tauto.
  - rewrite verdict_eq.
    destruct (duplicate env g r).
    { split; [|eauto]. intros _ (H & _); discriminate H. }
    case_bool_decide as Hc.
    + destruct (print_error env r) as [u|e0].
      * split; [|eauto]. intros _ (_ & _ & _ & e & H); discriminate H.
      * split; [intros [b H]; discriminate H|].
        intros H. exfalso. apply H. repeat split; try tauto. eauto.
    + split; [|eauto]. intros _ (_ & H1 & H2 & _). tauto.
  - intros Hp. rewrite verdict_eq, Hp.
    destruct (duplicate env g r); [eauto|]. case_bool_decide; eauto.
  - intros w. apply counter_getitem_total.
Qed.

(** C8, at a first record without arguments, exception or stack. *)
Lemma filter_returns_unless_print_error_raises_witness :
  print_error (at_time 1700000000 nvim_up)
    (bare ERROR "chromatica.compile_args" "no flags") = Normal tt
  ∧ counter __init__ !! "chromatica.compile_args" = None
  ∧ ∃ b, verdict (at_time 1700000000 nvim_up) __init__
           (bare ERROR "chromatica.compile_args" "no flags") = Normal b.
Proof.
  split; [reflexivity|]. split; [reflexivity|].
  exact (proj1 (proj2 (proj2 (filter_returns_unless_print_error_raises
                                (at_time 1700000000 nvim_up) __init__
                                (bare ERROR "chromatica.compile_args"
                                   "no flags"))))
           eq_refl).
Defined.

(** C8 as first stated fails: on an object that has seen one record, an
    error handed over while Neovim is gone ends the call with [OSError]. *)
Lemma filter_can_fault :
  verdict (at_time 1700000060 nvim_down)
    (after (at_time 1700000000 nvim_up) __init__
       (plain INFO "chromatica.logging" "--- Chromatica Log Start ---"))
    (bare ERROR "chromatica.compile_args" "no flags")
  = Raise (OSError "EOF").
Proof. vm_compute. reflexivity. Qed.

(** ** The invariant of the counters *)

Lemma counts_nonneg_init : counts_nonneg __init__.
Proof. intros source. unfold count. cbn. rewrite lookup_empty. cbn. lia. Qed.

Lemma counts_nonneg_after env g r :
  counts_nonneg g → counts_nonneg (after env g r).
Proof.
  intros Hg source. destruct (decide (source = name r)) as [->|Hs].
  - rewrite count_after. cbn. specialize (Hg (name r)).
    destruct (duplicate env g r); [exact Hg|].
    case_bool_decide.
    + destruct (verdict env g r); [destruct (penalty r)|]; lia.
    + case_bool_decide; lia.
  - rewrite count_other by exact Hs. apply Hg.
Qed.

Lemma counts_nonneg_run calls :
  ∀ g, counts_nonneg g → counts_nonneg (run g calls).
Proof.
  induction calls as [|[env r] rest IH]; intros g Hg; cbn.
  - exact Hg.
  - apply IH, counts_nonneg_after, Hg.
Qed.

(** C9.  No count is negative: not in a freshly built filter, not after a
    call on an object whose counts are not negative, whatever the record
    and however the call ends, and so not after any sequence of calls. *)
Theorem counts_never_negative :
  counts_nonneg __init__
  ∧ (∀ env g r, counts_nonneg g → counts_nonneg (after env g r))
  ∧ (∀ calls source, 0 ≤ count (run __init__ calls) source).
Proof.
  split; [exact counts_nonneg_init|]. split; [exact counts_nonneg_after|].
  intros calls. apply counts_nonneg_run, counts_nonneg_init.
Qed.

(** C9, at the call that follows a traced error. *)
Lemma counts_never_negative_witness :
  counts_nonneg (after (at_time 1700000000 nvim_up) __init__
                   (traced "chromatica.highlight" "token out of range"))
  ∧ counts_nonneg
      (after (at_time 1700000001 nvim_down)
         (after (at_time 1700000000 nvim_up) __init__
            (traced "chromatica.highlight" "token out of range"))
         (plain INFO "chromatica.highlight" "skipped")).
Proof.
  assert (H : counts_nonneg
                (after (at_time 1700000000 nvim_up) __init__
                   (traced "chromatica.highlight" "token out of range"))).
  { exact (proj1 (proj2 counts_never_negative) _ _ _
             (proj1 counts_never_negative)). }
  split; [exact H|].
  exact (proj1 (proj2 counts_never_negative) _ _ _ H).
Defined.

(** ** Notifications *)

(** C4 (as amended).  A record at [ERROR] or above that carries both
    exception and stack information, is no repeat, and whose notification
    (formatting and Neovim call), when line 139 is reached, does not raise,
    adds 2 to the count of its source in one call, which returns [True].
    Line 139 is reached exactly when the count is at most 2 after the first
    increment: the test of line 135 sits between the two increments.  From
    a count of 0 the record is notified once and leaves the count at 2, and
    no later record of that source is notified. *)
Theorem penalty_counts_twice env g r :
  duplicate env g r = false →
  ERROR ≤ levelno r →
  penalty r = true →
  (count g (name r) + 1 ≤ 2 → print_error env r = Normal tt) →
  verdict env g r = Normal true
  ∧ count (after env g r) (name r) = count g (name r) + 2
  ∧ length (notified env g r)
    = (if bool_decide (count g (name r) + 1 ≤ 2) then 1%nat else 0%nat)
  ∧ (count g (name r) = 0 →
     length (notified env g r) = 1%nat
     ∧ count (after env g r) (name r) = 2
     ∧ ∀ env' r', name r' = name r → notified env' (after env g r) r' = []).
Proof.
  intros Hd Hl Hp He.
  assert (Hv : verdict env g r = Normal true).
  { rewrite verdict_eq, Hd. case_bool_decide as Hc; [|reflexivity].
    rewrite (He (proj2 Hc)). reflexivity. }
  assert (Hc : count (after env g r) (name r) = count g (name r) + 2).
  { rewrite count_after, Hd, Hv, Hp. cbn.
    rewrite bool_decide_eq_true_2 by exact Hl. reflexivity. }
  assert (Hn : length (notified env g r)
    = (if bool_decide (count g (name r) + 1 ≤ 2) then 1%nat else 0%nat)).
  { rewrite notified_eq, Hd. cbn.
    destruct (bool_decide (count g (name r) + 1 ≤ 2)) eqn:Hb.
    - apply bool_decide_eq_true in Hb. specialize (He Hb).
      unfold print_error in He.
      destruct (getMessage r); [|discriminate He].
      rewrite bool_decide_eq_true_2 by (split; assumption). reflexivity.
    - apply bool_decide_eq_false in Hb.
      rewrite bool_decide_eq_false_2 by tauto. reflexivity. }
  repeat split; try assumption.
  - rewrite Hn, H. reflexivity.
  - rewrite Hc, H. reflexivity.
  - intros env' r' Hr'. rewrite notified_eq, Hr', Hc, H.
    rewrite bool_decide_eq_false_2 by lia. rewrite andb_false_r. reflexivity.
Qed.

(** C4, at a traced error that is the first record of its source, and at
    one that follows two errors of its source and comes while Neovim is
    gone: line 139 is not reached and the count goes from 2 to 4. *)
Lemma penalty_counts_twice_witness :
  (duplicate (at_time 1700000000 nvim_up) __init__
     (traced "chromatica.highlight" "token out of range") = false
   ∧ ERROR ≤ levelno (traced "chromatica.highlight" "token out of range")
   ∧ penalty (traced "chromatica.highlight" "token out of range") = true
   ∧ (count __init__ "chromatica.highlight" + 1 ≤ 2 →
      print_error (at_time 1700000000 nvim_up)
        (traced "chromatica.highlight" "token out of range") = Normal tt)
   ∧ count __init__ "chromatica.highlight" = 0)
  ∧ count (after (at_time 1700000000 nvim_up) __init__
             (traced "chromatica.highlight" "token out of range"))
      "chromatica.highlight" = 2
  ∧ notified (at_time 1700000001 nvim_up)
      (after (at_time 1700000000 nvim_up) __init__
         (traced "chromatica.highlight" "token out of range"))
      (plain ERROR "chromatica.highlight" "cursor out of range") = []
  ∧ (duplicate (at_time 1700000002 nvim_down)
       (run __init__ (take 2 in_succession))
       (traced "chromatica.parser" "token out of range") = false
     ∧ (count (run __init__ (take 2 in_succession)) "chromatica.parser" + 1
        ≤ 2 →
        print_error (at_time 1700000002 nvim_down)
          (traced "chromatica.parser" "token out of range") = Normal tt)
     ∧ print_error (at_time 1700000002 nvim_down)
         (traced "chromatica.parser" "token out of range")
       = Raise (OSError "EOF"))
  ∧ verdict (at_time 1700000002 nvim_down)
      (run __init__ (take 2 in_succession))
      (traced "chromatica.parser" "token out of range") = Normal true
  ∧ count (after (at_time 1700000002 nvim_down)
             (run __init__ (take 2 in_succession))
             (traced "chromatica.parser" "token out of range"))
      "chromatica.parser" = 2 + 2.
Proof.
  assert (Hl : ERROR ≤ ERROR) by (vm_compute; discriminate).
  assert (He : count __init__ "chromatica.highlight" + 1 ≤ 2 →
               print_error (at_time 1700000000 nvim_up)
                 (traced "chromatica.highlight" "token out of range")
               = Normal tt)
    by (intros _; reflexivity).
  pose proof (penalty_counts_twice (at_time 1700000000 nvim_up) __init__
                (traced "chromatica.highlight" "token out of range")
                eq_refl Hl eq_refl He) as (_ & _ & _ & H).
  specialize (H eq_refl). destruct H as (_ & H2 & H3).
  assert (Hc : count (run __init__ (take 2 in_succession))
                 "chromatica.parser" = 2)
    by (vm_compute; reflexivity).
  assert (He' : count (run __init__ (take 2 in_succession))
                  "chromatica.parser" + 1 ≤ 2 →
                print_error (at_time 1700000002 nvim_down)
                  (traced "chromatica.parser" "token out of range")
                = Normal tt)
    by (rewrite Hc; intros Hle; exfalso; apply Hle; reflexivity).
  assert (Hd' : duplicate (at_time 1700000002 nvim_down)
                  (run __init__ (take 2 in_succession))
                  (traced "chromatica.parser" "token out of range") = false)
    by (vm_compute; reflexivity).
  pose proof (penalty_counts_twice (at_time 1700000002 nvim_down)
                (run __init__ (take 2 in_succession))
                (traced "chromatica.parser" "token out of range")
                Hd' Hl eq_refl He') as (Hv' & Hc' & _).
  split;
    [exact (conj eq_refl (conj Hl (conj eq_refl (conj He eq_refl))))|].
  split; [exact H2|].
  split; [exact (H3 (at_time 1700000001 nvim_up)
                    (plain ERROR "chromatica.highlight" "cursor out of range")
                    eq_refl)|].
  split; [exact (conj Hd' (conj He' eq_refl))|].
  split; [exact Hv'|].
  exact (eq_trans Hc' (f_equal (λ x, x + 2) Hc)).
Defined.

(** C4 as first stated fails: when the Neovim call raises, line 143 is not
    reached; the traced error leaves the count at 1, and a second error of
    the source is notified. *)
Lemma penalty_lost_when_call_raises :
  count (after (at_time 1700000000 nvim_down) __init__
           (traced "chromatica.highlight" "token out of range"))
    "chromatica.highlight" = 1
  ∧ notified (at_time 1700000001 nvim_up)
      (after (at_time 1700000000 nvim_down) __init__
         (traced "chromatica.highlight" "token out of range"))
      (plain ERROR "chromatica.highlight" "cursor out of range")
    = [("chromatica#util#print_error", "cursor out of range")].
Proof. split; vm_compute; reflexivity. Qed.

(** C3 (as amended).  On a freshly built filter, three records of one
    source at [ERROR] or above, none dropped as a repeat, the first two
    without the pair of exception and stack information and with messages
    that format: Neovim is called for the first and for the second, whether
    or not those calls raise, and not for the third, which gets the verdict
    [True]. *)
Theorem three_errors_two_notifications e1 e2 e3 r1 r2 r3 text1 text2 :
  name r2 = name r1 → name r3 = name r1 →
  ERROR ≤ levelno r1 → ERROR ≤ levelno r2 → ERROR ≤ levelno r3 →
  penalty r1 = false → penalty r2 = false →
  getMessage r1 = Normal text1 → getMessage r2 = Normal text2 →
  duplicate e2 (after e1 __init__ r1) r2 = false →
  duplicate e3 (after e2 (after e1 __init__ r1) r2) r3 = false →
  notified e1 __init__ r1 = [("chromatica#util#print_error", text1)]
  ∧ notified e2 (after e1 __init__ r1) r2
    = [("chromatica#util#print_error", text2)]
  ∧ notified e3 (after e2 (after e1 __init__ r1) r2) r3 = []
  ∧ verdict e3 (after e2 (after e1 __init__ r1) r2) r3 = Normal true.
Proof.
  intros Hn2 Hn3 Hl1 Hl2 Hl3 Hp1 Hp2 Hm1 Hm2 Hd2 Hd3.
  assert (Hd1 : duplicate e1 __init__ r1 = false) by reflexivity.
  assert (H0 : count __init__ (name r1) = 0) by reflexivity.
  assert (Hc1 : count (after e1 __init__ r1) (name r1) = 1).
  { rewrite count_after, Hd1, Hp1, H0. cbn.
    rewrite bool_decide_eq_true_2 by exact Hl1.
    destruct (verdict e1 __init__ r1); reflexivity. }
  assert (Hc2 : count (after e2 (after e1 __init__ r1) r2) (name r1) = 2).
  { rewrite <- Hn2. rewrite count_after, Hd2, Hp2, Hn2, Hc1. cbn.
    rewrite bool_decide_eq_true_2 by exact Hl2.
    destruct (verdict e2 (after e1 __init__ r1) r2); reflexivity. }
  repeat split.
  - rewrite notified_eq, Hd1, H0, Hm1. cbn.
    rewrite bool_decide_eq_true_2 by lia. reflexivity.
  - rewrite notified_eq, Hd2, Hn2, Hc1, Hm2. cbn.
    rewrite bool_decide_eq_true_2 by lia. reflexivity.
  - rewrite notified_eq, Hd3, Hn3, Hc2. cbn.
    rewrite bool_decide_eq_false_2 by lia. reflexivity.
  - rewrite verdict_eq, Hd3, Hn3, Hc2.
    rewrite bool_decide_eq_false_2 by lia. reflexivity.
Qed.

(** C3, at three different errors of one source, one second apart, the
    first handed over while Neovim is gone. *)
Lemma three_errors_two_notifications_witness :
  (duplicate (at_time 1700000001 nvim_up)
     (after (at_time 1700000000 nvim_down) __init__
        (plain ERROR "chromatica.parser" "a"))
     (plain ERROR "chromatica.parser" "b") = false
   ∧ duplicate (at_time 1700000002 nvim_up)
       (after (at_time 1700000001 nvim_up)
          (after (at_time 1700000000 nvim_down) __init__
             (plain ERROR "chromatica.parser" "a"))
          (plain ERROR "chromatica.parser" "b"))
       (plain ERROR "chromatica.parser" "c") = false)
  ∧ notified (at_time 1700000000 nvim_down) __init__
      (plain ERROR "chromatica.parser" "a")
    = [("chromatica#util#print_error", "a")]
  ∧ notified (at_time 1700000001 nvim_up)
      (after (at_time 1700000000 nvim_down) __init__
         (plain ERROR "chromatica.parser" "a"))
      (plain ERROR "chromatica.parser" "b")
    = [("chromatica#util#print_error", "b")]
  ∧ notified (at_time 1700000002 nvim_up)
      (after (at_time 1700000001 nvim_up)
         (after (at_time 1700000000 nvim_down) __init__
            (plain ERROR "chromatica.parser" "a"))
         (plain ERROR "chromatica.parser" "b"))
      (plain ERROR "chromatica.parser" "c") = []
  ∧ verdict (at_time 1700000002 nvim_up)
      (after (at_time 1700000001 nvim_up)
         (after (at_time 1700000000 nvim_down) __init__
            (plain ERROR "chromatica.parser" "a"))
         (plain ERROR "chromatica.parser" "b"))
      (plain ERROR "chromatica.parser" "c") = Normal true.
Proof.
  assert (Hl : ERROR ≤ ERROR) by (vm_compute; discriminate).
  assert (Hd2 : duplicate (at_time 1700000001 nvim_up)
     (after (at_time 1700000000 nvim_down) __init__
        (plain ERROR "chromatica.parser" "a"))
     (plain ERROR "chromatica.parser" "b") = false)
    by (vm_compute; reflexivity).
  assert (Hd3 : duplicate (at_time 1700000002 nvim_up)
       (after (at_time 1700000001 nvim_up)
          (after (at_time 1700000000 nvim_down) __init__
             (plain ERROR "chromatica.parser" "a"))
          (plain ERROR "chromatica.parser" "b"))
       (plain ERROR "chromatica.parser" "c") = false)
    by (vm_compute; reflexivity).
  split; [exact (conj Hd2 Hd3)|].
  exact (three_errors_two_notifications
           (at_time 1700000000 nvim_down) (at_time 1700000001 nvim_up)
           (at_time 1700000002 nvim_up)
           (plain ERROR "chromatica.parser" "a")
           (plain ERROR "chromatica.parser" "b")
           (plain ERROR "chromatica.parser" "c") "a" "b"
           eq_refl eq_refl Hl Hl Hl eq_refl eq_refl eq_refl eq_refl Hd2 Hd3).
Defined.

(** C3 as first stated fails: the first of three errors has a template that
    does not fit its argument; [getMessage] raises before Neovim is called,
    and of the three records only the second is notified. *)
Lemma misformatted_error_not_notified :
  levelno (misformatted "chromatica.parser") = ERROR
  ∧ exc_info (misformatted "chromatica.parser") = None
  ∧ stack_info (misformatted "chromatica.parser") = None
  ∧ duplicate (at_time 1700000000 nvim_up) __init__
      (misformatted "chromatica.parser") = false
  ∧ notified (at_time 1700000000 nvim_up) __init__
      (misformatted "chromatica.parser") = []
  ∧ notified (at_time 1700000001 nvim_up)
      (after (at_time 1700000000 nvim_up) __init__
         (misformatted "chromatica.parser"))
      (plain ERROR "chromatica.parser" "b")
    = [("chromatica#util#print_error", "b")]
  ∧ notified (at_time 1700000002 nvim_up)
      (after (at_time 1700000001 nvim_up)
         (after (at_time 1700000000 nvim_up) __init__
            (misformatted "chromatica.parser"))
         (plain ERROR "chromatica.parser" "b"))
      (plain ERROR "chromatica.parser" "c") = [].
Proof. repeat split; vm_compute; reflexivity. Qed.

(** A record of another source leaves the budget of [source] alone; a
    record of [source] spends one unit of it for every call it makes on
    Neovim, and gives one unit back when it takes the count from 1 to 0. *)
Lemma budget_step source env g r :
  ((if bool_decide (name r = source) then length (notified env g r) else 0)
   + budget (after env g r) source
   ≤ budget g source + (if resets_one source env g r then 1 else 0))%nat.
Proof.
  unfold budget, resets_one. case_bool_decide as Hs.
  - subst source. rewrite notified_eq, count_after. cbn.
    destruct (duplicate env g r); cbn; [lia|].
    destruct (bool_decide (ERROR ≤ levelno r ∧ count g (name r) + 1 ≤ 2))
      eqn:Hb.
    + apply bool_decide_eq_true in Hb as [Hl Hc].
      rewrite (bool_decide_eq_true_2 (ERROR ≤ levelno r)) by exact Hl.
      rewrite (bool_decide_eq_false_2 (levelno r < ERROR)) by lia. cbn.
      assert (Hlen : (length match getMessage r with
                             | Normal text =>
                                 [("chromatica#util#print_error", text)]
                             | Raise _ => []
                             end ≤ 1)%nat)
        by (destruct (getMessage r); cbn; lia).
      destruct (verdict env g r); [destruct (penalty r)|]; lia.
    + apply bool_decide_eq_false in Hb. cbn.
      case_bool_decide as Hl.
      * rewrite (bool_decide_eq_false_2 (levelno r < ERROR)) by lia. cbn.
        destruct (verdict env g r); [destruct (penalty r)|]; lia.
      * rewrite (bool_decide_eq_true_2 (levelno r < ERROR)) by lia.
        repeat case_bool_decide; cbn; lia.
  - cbn. rewrite count_other by congruence. lia.
Qed.

Lemma budget_run source calls :
  ∀ g, (notifications source g calls + budget (run g calls) source
        ≤ budget g source + resets source g calls)%nat.
Proof.
  induction calls as [|[env r] rest IH]; intros g; cbn.
  - lia.
  - specialize (IH (after env g r)).
    pose proof (budget_step source env g r). lia.
Qed.

Lemma exhausted_step source env g r :
  2 ≤ count g source →
  2 ≤ count (after env g r) source
  ∧ (name r = source → notified env g r = []).
Proof.
  intros Hc. split.
  - destruct (decide (source = name r)) as [->|Hs].
    + rewrite count_after. cbn.
      destruct (duplicate env g r); [exact Hc|].
      case_bool_decide.
      * destruct (verdict env g r); [destruct (penalty r)|]; lia.
      * rewrite bool_decide_eq_false_2 by lia. exact Hc.
    + rewrite count_other by exact Hs. exact Hc.
  - intros <-. rewrite notified_eq.
    rewrite bool_decide_eq_false_2 by lia. rewrite andb_false_r. reflexivity.
Qed.

Lemma exhausted_run source calls :
  ∀ g, 2 ≤ count g source →
       notifications source g calls = 0%nat
       ∧ 2 ≤ count (run g calls) source.
Proof.
  induction calls as [|[env r] rest IH]; intros g Hc; cbn.
  - split; [reflexivity | exact Hc].
  - destruct (exhausted_step source env g r Hc) as [Hc' Hn].
    destruct (IH _ Hc') as [IHn IHc]. split; [|exact IHc].
    rewrite IHn. case_bool_decide as Hs; [|reflexivity].
    rewrite (Hn Hs). reflexivity.
Qed.

Lemma resets_none source calls :
  Forall (λ call : Env * LogRecord,
            name call.2 = source → ERROR ≤ levelno call.2) calls →
  ∀ g, resets source g calls = 0%nat.
Proof.
  induction 1 as [|[env r] rest Hr _ IH]; intros g; cbn.
  - reflexivity.
  - rewrite IH. unfold resets_one. cbn in Hr.
    case_bool_decide as Hs; [|reflexivity].
    rewrite (bool_decide_eq_false_2 (levelno r < ERROR)) by (specialize (Hr Hs); lia).
    rewrite andb_false_r. reflexivity.
Qed.

(** C2 (as amended).  The limit of two notifications holds for errors in
    succession, not for the life of the process.  Over any sequence of calls
    on a freshly built filter, Neovim is called for a source at most twice,
    plus once for every record that took the count of the source from 1 back
    to 0; so at most twice when the sequence holds no record of that source
    below [ERROR].  Once the count of a source is 2 or more it stays so, and
    no later record of the source is notified; a record at [ERROR] or above
    that arrives then and is no repeat gets the verdict [True] without a
    call on Neovim. *)
Theorem notification_budget source calls :
  (notifications source __init__ calls
   ≤ 2 + resets source __init__ calls)%nat
  ∧ (Forall (λ call : Env * LogRecord,
               name call.2 = source → ERROR ≤ levelno call.2) calls →
     (notifications source __init__ calls ≤ 2)%nat)
  ∧ (∀ g, 2 ≤ count g source →
          notifications source g calls = 0%nat
          ∧ 2 ≤ count (run g calls) source)
  ∧ (∀ env g r, name r = source → 2 ≤ count g source →
                ERROR ≤ levelno r → duplicate env g r = false →
                verdict env g r = Normal true ∧ notified env g r = []).
Proof.
  assert (Hb : (notifications source __init__ calls
                ≤ 2 + resets source __init__ calls)%nat).
  { pose proof (budget_run source calls __init__) as H.
    change (budget __init__ source) with 2%nat in H. lia. }
  split; [exact Hb|]. split; [|split].
  - intros Hall. rewrite (resets_none source calls Hall) in Hb. lia.
  - intros g Hc. apply exhausted_run, Hc.
  - intros env g r <- Hc Hl Hd. split.
    + rewrite verdict_eq, Hd, bool_decide_eq_false_2 by lia. reflexivity.
    + apply (exhausted_step (name r) env g r Hc). reflexivity.
Qed.

(** C2, at three errors in succession, and at a filter that has seen two
    errors of the source. *)
Lemma notification_budget_witness :
  (Forall (λ call : Env * LogRecord,
             name call.2 = "chromatica.parser" → ERROR ≤ levelno call.2)
     in_succession
   ∧ 2 ≤ count (run __init__ (take 2 in_succession)) "chromatica.parser")
  ∧ (notifications "chromatica.parser" __init__ in_succession ≤ 2)%nat
  ∧ notifications "chromatica.parser"
      (run __init__ (take 2 in_succession)) alternating = 0%nat.
Proof.
  assert (Hall : Forall (λ call : Env * LogRecord,
             name call.2 = "chromatica.parser" → ERROR ≤ levelno call.2)
     in_succession).
  { repeat constructor; intros _; vm_compute; discriminate. }
  assert (Hc : 2 ≤ count (run __init__ (take 2 in_succession))
                 "chromatica.parser")
    by (vm_compute; discriminate).
  split; [exact (conj Hall Hc)|]. split.
  - exact (proj1 (proj2 (notification_budget "chromatica.parser"
                           in_succession)) Hall).
  - exact (proj1 (proj1 (proj2 (proj2 (notification_budget
                                         "chromatica.parser" alternating)))
                    _ Hc)).
Defined.

(** C2 as first stated fails: with a record below [ERROR] between them,
    three errors of one source are notified, three calls on Neovim.  And a
    third error that repeats the second within the cooldown is dropped,
    verdict [False], though the two notifications are spent. *)
Lemma more_than_two_notifications :
  notifications "chromatica.parser" __init__ alternating = 3%nat
  ∧ resets "chromatica.parser" __init__ alternating = 2%nat
  ∧ count (run __init__ (take 2 in_succession)) "chromatica.parser" = 2
  ∧ verdict (at_time 1700000001.25 nvim_up)
      (run __init__ (take 2 in_succession))
      (plain ERROR "chromatica.parser" "b") = Normal false.
Proof. repeat split; vm_compute; reflexivity. Qed.

(** * Further properties of [filter] *)

(** What a call leaves in [last_message]. *)
Lemma after_last_message env g r :
  last_message (after env g r) = Some (message_of r).
Proof.
  by_branch env g r; split_print_error; try reflexivity.
  unfold duplicate in Hd. apply andb_true_iff in Hd as [Hm _].
  apply bool_decide_eq_true in Hm. exact Hm.
Qed.

Lemma run_snoc calls :
  ∀ g env r, run g (calls ++ [(env, r)]) = after env (run g calls) r.
Proof.
  induction calls as [|[env0 r0] rest IH]; intros g env r; cbn.
  - reflexivity.
  - apply IH.
Qed.

(** X1.  After any sequence of calls, however each of them ended,
    [last_message] is the signature of the record of the last call, dropped
    or not: a record that passes is stored, and a record dropped as a
    repeat equals the one stored.  So a record that differs from the one
    handed over just before it is never dropped, however fast it comes. *)
Theorem last_message_is_current g calls env r env' r' :
  last_message (run g (calls ++ [(env, r)])) = Some (message_of r)
  ∧ (message_of r' ≠ message_of r →
     duplicate env' (run g (calls ++ [(env, r)])) r' = false
     ∧ verdict env' (run g (calls ++ [(env, r)])) r' ≠ Normal false).
Proof.
  assert (Hm : last_message (run g (calls ++ [(env, r)]))
               = Some (message_of r))
    by (rewrite run_snoc; apply after_last_message).
  split; [exact Hm|]. intros Hne.
  assert (Hd : duplicate env' (run g (calls ++ [(env, r)])) r' = false).
  { unfold duplicate. rewrite Hm, bool_decide_eq_false_2; [reflexivity|].
    intros H. apply Hne. symmetry. apply (inj Some). exact H. }
  split; [exact Hd|]. rewrite verdict_eq, Hd.
  case_bool_decide; [|discriminate].
  destruct (print_error env' r'); discriminate.
Qed.

(** X1, at two different errors of one source handed over at the same
    reading of the clock. *)
Lemma last_message_is_current_witness :
  message_of (plain ERROR "chromatica.parser" "b")
  ≠ message_of (plain ERROR "chromatica.parser" "a")
  ∧ duplicate (at_time 1700000000 nvim_up)
      (run __init__
         ([] ++ [(at_time 1700000000 nvim_up,
                  plain ERROR "chromatica.parser" "a")]))
      (plain ERROR "chromatica.parser" "b") = false.
Proof.
  assert (H : message_of (plain ERROR "chromatica.parser" "b")
              ≠ message_of (plain ERROR "chromatica.parser" "a"))
    by discriminate.
  split; [exact H|].
  exact (proj1 (proj2 (last_message_is_current __init__ []
                         (at_time 1700000000 nvim_up)
                         (plain ERROR "chromatica.parser" "a")
                         (at_time 1700000000 nvim_up)
                         (plain ERROR "chromatica.parser" "b")) H)).
Defined.

(** X2.  The cooldown runs from the previous call, not from the previous
    record that passed.  A record that keeps coming back, each time less
    than 0.5 s after the call before, is dropped every time, however long
    that lasts; the counters and [last_message] stay as they were and
    Neovim is never called. *)
Theorem steady_repeats_all_dropped r envs :
  ∀ g,
    last_message g = Some (message_of r) →
    steady (last_message_time g) (map time_time envs) = true →
    Forall (λ v, v = Normal false) (verdicts g (again r envs))
    ∧ counter (run g (again r envs)) = counter g
    ∧ last_message (run g (again r envs)) = last_message g
    ∧ notifications (name r) g (again r envs) = 0%nat.
Proof.
  induction envs as [|env rest IH]; intros g Hm Hs.
  - repeat split. constructor.
  - cbn in Hs. apply andb_true_iff in Hs as [Ht Hs].
    assert (Hd : duplicate env g r = true).
    { unfold duplicate. rewrite Ht, andb_true_r.
      apply bool_decide_eq_true. exact Hm. }
    assert (Hv : verdict env g r = Normal false)
      by (rewrite verdict_eq, Hd; reflexivity).
    assert (Hn : notified env g r = [])
      by (rewrite notified_eq, Hd; reflexivity).
    assert (Ha : after env g r
                 = {| counter := counter g;
                      last_message_time := time_time env;
                      last_message := last_message g |})
      by (unfold after; rewrite (evaluate_duplicate env g r Hd); reflexivity).
    destruct (IH (after env g r)) as (IHv & IHc & IHm & IHn).
    { rewrite Ha. exact Hm. }
    { rewrite Ha. exact Hs. }
    unfold again in *. cbn.
    repeat split.
    + constructor; [exact Hv | exact IHv].
    + rewrite IHc, Ha. reflexivity.
    + rewrite IHm, Ha. reflexivity.
    + rewrite Hn, IHn. case_bool_decide; reflexivity.
Qed.

(** X2, at an error that comes back four times, a quarter of a second
    apart, after it passed. *)
Lemma steady_repeats_all_dropped_witness :
  (last_message (after (at_time 1700000000 nvim_up) __init__
                   (plain ERROR "chromatica.parser" "x"))
     = Some (message_of (plain ERROR "chromatica.parser" "x"))
   ∧ steady (last_message_time
               (after (at_time 1700000000 nvim_up) __init__
                  (plain ERROR "chromatica.parser" "x")))
       (map time_time quarter_seconds) = true)
  ∧ Forall (λ v, v = Normal false)
      (verdicts (after (at_time 1700000000 nvim_up) __init__
                   (plain ERROR "chromatica.parser" "x"))
         (again (plain ERROR "chromatica.parser" "x") quarter_seconds))
  ∧ count (run (after (at_time 1700000000 nvim_up) __init__
                  (plain ERROR "chromatica.parser" "x"))
             (again (plain ERROR "chromatica.parser" "x") quarter_seconds))
      "chromatica.parser" = 1.
Proof.
  assert (Hm : last_message (after (at_time 1700000000 nvim_up) __init__
                   (plain ERROR "chromatica.parser" "x"))
     = Some (message_of (plain ERROR "chromatica.parser" "x")))
    by (vm_compute; reflexivity).
  assert (Hs : steady (last_message_time
               (after (at_time 1700000000 nvim_up) __init__
                  (plain ERROR "chromatica.parser" "x")))
       (map time_time quarter_seconds) = true)
    by (vm_compute; reflexivity).
  pose proof (steady_repeats_all_dropped
                (plain ERROR "chromatica.parser" "x") quarter_seconds _ Hm Hs)
    as (Hv & Hc & _).
  split; [exact (conj Hm Hs)|]. split; [exact Hv|].
  unfold count. rewrite Hc. vm_compute. reflexivity.
Defined.

Lemma stored_error_counted_init : stored_error_counted __init__.
Proof. intros level source text arguments H. discriminate H. Qed.

Lemma stored_error_counted_after env g r :
  counts_nonneg g → stored_error_counted g →
  stored_error_counted (after env g r).
Proof.
  intros Hn Hg level source text arguments Hm Hl.
  destruct (duplicate env g r) eqn:Hd.
  - unfold after in *. rewrite (evaluate_duplicate env g r Hd) in *.
    cbn in *. exact (Hg level source text arguments Hm Hl).
  - rewrite after_last_message in Hm. injection Hm as <- <- <- <-.
    rewrite count_after, Hd. cbn.
    rewrite bool_decide_eq_true_2 by exact Hl.
    specialize (Hn (name r)).
    destruct (verdict env g r); [destruct (penalty r)|]; lia.
Qed.

Lemma stored_error_counted_run calls :
  ∀ g, counts_nonneg g → stored_error_counted g →
       stored_error_counted (run g calls).
Proof.
  induction calls as [|[env r] rest IH]; intros g Hn Hg; cbn.
  - exact Hg.
  - apply IH.
    + apply counts_nonneg_after, Hn.
    + apply stored_error_counted_after; assumption.
Qed.

(** X3.  On a filter that has run from its construction, the first error
    of a source, or the first after its count went back to 0, is never
    dropped as a repeat, whatever the clock reads: the filter increments the
    count and reaches the notification of line 139. *)
Theorem uncounted_error_is_not_dropped calls env r :
  ERROR ≤ levelno r →
  count (run __init__ calls) (name r) = 0 →
  duplicate env (run __init__ calls) r = false
  ∧ verdict env (run __init__ calls) r ≠ Normal false
  ∧ 1 ≤ count (after env (run __init__ calls) r) (name r)
  ∧ notified env (run __init__ calls) r
    = match getMessage r with
      | Normal text => [("chromatica#util#print_error", text)]
      | Raise _ => []
      end.
Proof.
  intros Hl Hc. set (g := run __init__ calls) in *.
  assert (Hinv : stored_error_counted g).
  { apply stored_error_counted_run;
      [exact counts_nonneg_init | exact stored_error_counted_init]. }
  assert (Hd : duplicate env g r = false).
  { destruct (duplicate env g r) eqn:Hd; [|reflexivity]. exfalso.
    unfold duplicate in Hd. apply andb_true_iff in Hd as [Hm _].
    apply bool_decide_eq_true in Hm.
    specialize (Hinv _ _ _ _ Hm Hl). lia. }
  split; [exact Hd|]. split; [|split].
  - rewrite verdict_eq, Hd. case_bool_decide; [|discriminate].
    destruct (print_error env r); discriminate.
  - rewrite count_after, Hd, Hc. cbn.
    rewrite bool_decide_eq_true_2 by exact Hl.
    destruct (verdict env g r); [destruct (penalty r)|]; lia.
  - rewrite notified_eq, Hd, Hc. cbn.
    rewrite bool_decide_eq_true_2 by lia. reflexivity.
Qed.

(** X3, at an error that follows an error and an info of its source, with
    the text of the first error and within the cooldown. *)
Lemma uncounted_error_is_not_dropped_witness :
  (ERROR ≤ levelno (plain ERROR "chromatica.parser" "a")
   ∧ count (run __init__ (take 2 alternating)) "chromatica.parser" = 0)
  ∧ duplicate (at_time 1700000001.25 nvim_up)
      (run __init__ (take 2 alternating))
      (plain ERROR "chromatica.parser" "a") = false.
Proof.
  assert (Hl : ERROR ≤ levelno (plain ERROR "chromatica.parser" "a"))
    by (vm_compute; discriminate).
  assert (Hc : count (run __init__ (take 2 alternating))
                 "chromatica.parser" = 0)
    by (vm_compute; reflexivity).
  split; [exact (conj Hl Hc)|].
  exact (proj1 (uncounted_error_is_not_dropped (take 2 alternating)
                  (at_time 1700000001.25 nvim_up)
                  (plain ERROR "chromatica.parser" "a") Hl Hc)).
Defined.

(** X4.  [counter] is a [defaultdict]: reading it stores the key.  A call
    that does not drop its record leaves the source of the record among the
    keys, also when the record is below [ERROR] and nothing is counted; a
    call that drops its record adds no key; no call removes one. *)
Theorem counter_keys env g r :
  dom (counter (after env g r))
  = if duplicate env g r then dom (counter g)
    else {[name r]} ∪ dom (counter g).
Proof.
  by_branch env g r; split_print_error; rewrite ?dom_insert_L;
    try reflexivity.
  unfold count in *. destruct (counter g !! name r) as [v|] eqn:E.
  - assert (Hin : name r ∈ dom (counter g))
      by (apply elem_of_dom; exists v; exact E).
    symmetry. apply subseteq_union_1_L, singleton_subseteq_l, Hin.
  - cbn in *. lia.
Qed.

(** * Properties of [setup] *)

Section setup_properties.

Import startup.

Ltac run_setup :=
  unfold setup, try_neovim_version, python_version, call_host, call, raise,
    get_init, set_init, mbind, mret, Script_bind, Script_ret;
  cbn.

(** Every way through [setup]: the calls that can fail, one after the
    other. *)
Ltac split_setup :=
  repeat first
    [ progress cbn
    | match goal with
      | |- context [open_handler ?h ?f] =>
          destruct (open_handler h f) as [[]|?]
      | |- context [logging_getattr ?l] => destruct (logging_getattr l)
      | |- context [neovim_distribution ?h] =>
          destruct (neovim_distribution h) as [?|[]]
      | |- context [logger_info ?h ?l ?m ?a] =>
          destruct (logger_info h l m a) as [[]|?]
      | |- context [nvim ?h ?f ?a] => destruct (nvim h f a)
      | |- context [version_info ?h] =>
          destruct (version_info h) as [[? ?] ?]
      end ].

(** Lines 32-33. *)
Lemma setup_started level file host p :
  init p = true → setup level file host p = (Returns tt, p).
Proof. intros H. run_setup. rewrite H. reflexivity. Qed.

Lemma setup_sets_init level file host p :
  init (snd (setup level file host p)) = true.
Proof.
  destruct (init p) eqn:E.
  - rewrite setup_started by exact E. exact E.
  - run_setup. rewrite E. destruct file as [[|c rest]|]; split_setup;
      reflexivity.
Qed.

Lemma setups_started calls :
  ∀ p, init p = true → setups calls p = p.
Proof.
  induction calls as [|[[level file] host] rest IH]; intros p H; cbn.
  - reflexivity.
  - rewrite setup_started by exact H. cbn. apply IH, H.
Qed.

Lemma setup_one_handler level file host :
  (handlers_added (snd (setup level file host imported)) ≤ 1)%nat.
Proof.
  unfold handlers_added. run_setup.
  destruct file as [[|c rest]|]; split_setup; lia.
Qed.

Lemma endings_started calls :
  ∀ p, init p = true → Forall (λ e, e = Returns tt) (endings calls p).
Proof.
  induction calls as [|[[level file] host] rest IH]; intros p H; cbn.
  - constructor.
  - rewrite setup_started by exact H. cbn.
    constructor; [reflexivity | apply IH, H].
Qed.

(** X5.  [setup] acts once in the life of the process.  Its first call sets
    [init], whatever its arguments and however it ends.  Every later call,
    whatever its arguments and its host, returns at once: it ends normally,
    asks nothing of the library or of Neovim, and leaves the process as it
    found it.  So [root] gets one handler at most, and what a sequence of
    calls leaves is what its first call left. *)
Theorem setup_acts_once level file host calls :
  init (snd (setup level file host imported)) = true
  ∧ (∀ level' file' host',
       setup level' file' host' (snd (setup level file host imported))
       = (Returns tt, snd (setup level file host imported)))
  ∧ Forall (λ e, e = Returns tt)
      (endings calls (snd (setup level file host imported)))
  ∧ setups ((level, file, host) :: calls) imported
    = snd (setup level file host imported)
  ∧ (handlers_added (setups ((level, file, host) :: calls) imported) ≤ 1)%nat.
Proof.
  assert (Hi : init (snd (setup level file host imported)) = true)
    by apply setup_sets_init.
  assert (Hs : setups ((level, file, host) :: calls) imported
               = snd (setup level file host imported)).
  { cbn. apply setups_started, Hi. }
  split; [exact Hi|]. split; [|split; [|split]].
  - intros level' file' host'. apply setup_started, Hi.
  - apply endings_started, Hi.
  - exact Hs.
  - rewrite Hs. apply setup_one_handler.
Qed.

(** X6.  A first call without an output file, [None] or the empty text,
    installs nothing and still sets [init]: no later call, whatever file it
    names, installs a handler or tells Neovim anything. *)
Theorem setup_without_file_is_final level file host calls :
  file = None ∨ file = Some "" →
  setups ((level, file, host) :: calls) imported
  = {| init := true; trace := [] |}.
Proof.
  intros Hf. cbn. rewrite setups_started.
  - destruct Hf as [-> | ->]; reflexivity.
  - apply setup_sets_init.
Qed.

(** X6, at a call without a file followed by a call with one. *)
Lemma setup_without_file_is_final_witness :
((None : option string) = None ∨ None = Some "")
  ∧ setups [ ("INFO", None, working);
             ("INFO", Some "/tmp/chromatica.log", working) ] imported
    = {| init := true; trace := [] |}.
Proof.
  split; [left; reflexivity|].
  exact (setup_without_file_is_final "INFO" None working
           [("INFO", Some "/tmp/chromatica.log", working)]
           (or_introl eq_refl)).
Defined.

Lemma level_name_listed level : level_name level ∈ level_names.
Proof.
  unfold level_name. case_bool_decide as H; [exact H|].
  unfold level_names. apply elem_of_cons. left. reflexivity.
Qed.

Lemma listed_level_number name :
  name ∈ level_names →
  ∃ n, logging_getattr name = Some n ∧ n ∈ [10; 20; 30; 40; 50].
Proof.
  unfold level_names. intros H.
  repeat (apply elem_of_cons in H as [->|H]);
    [ exists 10 | exists 20 | exists 30 | exists 30 | exists 40
    | exists 50 | exists 50 | ];
    try (split; [reflexivity | set_solver]).
  apply elem_of_nil in H. destruct H.
Qed.

(** The calls of lines 37 to 47 when the file opens. *)
Lemma setup_installs level file host :
  file ≠ "" →
  open_handler host file = Returns tt →
  ∀ n, logging_getattr (level_name level) = Some n →
  ∃ more,
    trace (snd (setup level (Some file) host imported))
    = [ FileHandler file; setFormatter log_format;
        addFilter __init__; addHandler; setLevel n ] ++ more.
Proof.
  intros Hf Ho n Hn. destruct file as [|c rest]; [done|]. run_setup. rewrite Ho, Hn. split_setup; eexists; reflexivity.
Qed.

(** X7.  The level lookup of line 47 cannot fail.  Whatever ASCII text is
    given for the level, the attribute read from [logging] is one of the
    seven names of line 44, so the level put on [root] is 10, 20, 30, 40 or
    50, never [NOTSET]; when the file opens, [root] gets its handler, with
    a freshly built [ChromaticaLogFilter], and that level, before anything
    that can still fail. *)
Theorem setup_level_always_valid level file host :
  ascii_text level = true →
  file ≠ "" →
  open_handler host file = Returns tt →
  ∃ n more,
    level_name level ∈ level_names
    ∧ logging_getattr (level_name level) = Some n
    ∧ n ∈ [10; 20; 30; 40; 50]
    ∧ trace (snd (setup level (Some file) host imported))
      = [ FileHandler file; setFormatter log_format;
          addFilter __init__; addHandler; setLevel n ] ++ more.
Proof.
  intros _ Hf Ho.
  destruct (listed_level_number _ (level_name_listed level)) as (n & Hn & Hin).
  destruct (setup_installs level file host Hf Ho n Hn) as [more Hm].
  exists n, more. split; [apply level_name_listed|].
  split; [exact Hn|]. split; [exact Hin | exact Hm].
Qed.

(** X7, at a level that is no level name, and so selects [DEBUG]. *)
Lemma setup_level_always_valid_witness :
  (ascii_text "verbose" = true
   ∧ "/tmp/chromatica.log" ≠ ""
   ∧ open_handler working "/tmp/chromatica.log" = Returns tt)
  ∧ ∃ more,
      trace (snd (setup "verbose" (Some "/tmp/chromatica.log") working
                    imported))
      = [ FileHandler "/tmp/chromatica.log"; setFormatter log_format;
          addFilter __init__; addHandler; setLevel 10 ] ++ more.
Proof.
  assert (Hf : "/tmp/chromatica.log" ≠ "") by discriminate.
  split; [exact (conj eq_refl (conj Hf eq_refl))|].
  destruct (setup_level_always_valid "verbose" "/tmp/chromatica.log" working
              eq_refl Hf eq_refl) as (n & more & _ & Hn & _ & H).
  vm_compute in Hn. injection Hn as <-.
  exists more. exact H.
Defined.

Lemma upper_char_digit c :
  ((48 <=? Ascii.N_of_ascii c) && (Ascii.N_of_ascii c <=? 57))%N = true →
  upper_char c = c.
Proof.
  intros H. apply andb_true_iff in H as [_ H]. apply N.leb_le in H.
  unfold upper_char. cbn zeta.
  rewrite (proj2 (N.leb_gt 97 (Ascii.N_of_ascii c))) by lia. reflexivity.
Qed.

Lemma digits_name level : digits level = true → level_name level = "DEBUG".
Proof.
  intros Hd.
  unfold level_name. rewrite bool_decide_eq_false_2; [reflexivity|].
  destruct level as [|c rest]; cbn; unfold level_names; intros Hin.
  - repeat (apply elem_of_cons in Hin as [Hin|Hin]; [discriminate Hin|]).
    apply elem_of_nil in Hin. exact Hin.
  - cbn in Hd. apply andb_true_iff in Hd as [Hc _].
    rewrite (upper_char_digit c Hc) in Hin.
    repeat (apply elem_of_cons in Hin as [Hin|Hin];
            [injection Hin as -> _; discriminate Hc|]).
    apply elem_of_nil in Hin. exact Hin.
Qed.

(** X8.  A level given as a number selects [DEBUG]: line 43 turns it into
    its decimal text, which is none of the names of line 44, so [root] is
    set to 10 whatever the number was.  So it is for the empty text. *)
Theorem numeric_level_selects_debug level file host :
  digits level = true →
  file ≠ "" →
  open_handler host file = Returns tt →
  level_name level = "DEBUG"
  ∧ ∃ more,
      trace (snd (setup level (Some file) host imported))
      = [ FileHandler file; setFormatter log_format;
          addFilter __init__; addHandler; setLevel 10 ] ++ more.
Proof.
  intros Hd Hf Ho. pose proof (digits_name level Hd) as Hn.
  split; [exact Hn|].
  apply (setup_installs level file host Hf Ho 10).
  rewrite Hn. reflexivity.
Qed.

(** X8, at [str(40)], the number of [logging.ERROR]. *)
Lemma numeric_level_selects_debug_witness :
  (digits "40" = true
   ∧ "/tmp/chromatica.log" ≠ ""
   ∧ open_handler working "/tmp/chromatica.log" = Returns tt)
  ∧ ∃ more,
      trace (snd (setup "40" (Some "/tmp/chromatica.log") working imported))
      = [ FileHandler "/tmp/chromatica.log"; setFormatter log_format;
          addFilter __init__; addHandler; setLevel 10 ] ++ more.
Proof.
  assert (Hf : "/tmp/chromatica.log" ≠ "") by discriminate.
  split; [exact (conj eq_refl (conj Hf eq_refl))|].
  exact (proj2 (numeric_level_selects_debug "40" "/tmp/chromatica.log"
                  working eq_refl Hf eq_refl)).
Defined.

(** X9.  When the log file cannot be opened, the exception leaves [setup]
    with nothing installed: no handler, no level, no line, no notice.
    [init] is set by then, so no later call installs anything either. *)
Theorem unopened_file_is_final level file host e calls :
  file ≠ "" →
  open_handler host file = Raises e →
  fst (setup level (Some file) host imported) = Raises e
  ∧ setups ((level, Some file, host) :: calls) imported
    = {| init := true; trace := [FileHandler file] |}.
Proof.
  intros Hf Ho.
  assert (Hs : setup level (Some file) host imported
               = (Raises e, {| init := true; trace := [FileHandler file] |})).
  { destruct file as [|c rest]; [done|]. run_setup. rewrite Ho.
    reflexivity. }
  split; [rewrite Hs; reflexivity|].
  cbn [setups]. rewrite Hs. cbn. apply setups_started. reflexivity.
Qed.

(** X9, at a file in a directory that cannot be written to, and a second
    call that names a file that could be. *)
Lemma unopened_file_is_final_witness :
  ("/chromatica.log" ≠ ""
   ∧ open_handler read_only_directory "/chromatica.log"
     = Raises (Builtin (OSError "Permission denied")))
  ∧ setups [ ("DEBUG", Some "/chromatica.log", read_only_directory);
             ("DEBUG", Some "/tmp/chromatica.log", working) ] imported
    = {| init := true; trace := [FileHandler "/chromatica.log"] |}.
Proof.
  assert (Hf : "/chromatica.log" ≠ "") by discriminate.
  split; [exact (conj Hf eq_refl)|].
  exact (proj2 (unopened_file_is_final "DEBUG" "/chromatica.log"
                  read_only_directory (Builtin (OSError "Permission denied"))
                  [("DEBUG", Some "/tmp/chromatica.log", working)]
                  Hf eq_refl)).
Defined.

(** X10.  The [try] of lines 49-53 absorbs [ImportError] and nothing else.
    For an ASCII level text, any other exception of the lookup of the
    [neovim] distribution leaves [setup] after the handler and the level
    are installed and before the first line is logged and Neovim is told
    where the log is. *)
Theorem lookup_failure_leaves_setup level file host e :
  ascii_text level = true →
  file ≠ "" →
  open_handler host file = Returns tt →
  neovim_distribution host = Raises e →
  (∀ text, e ≠ ImportError text) →
  ∃ n,
    logging_getattr (level_name level) = Some n
    ∧ n ∈ [10; 20; 30; 40; 50]
    ∧ setup level (Some file) host imported
      = (Raises e,
         {| init := true;
            trace := [ FileHandler file; setFormatter log_format;
                       addFilter __init__; addHandler; setLevel n ] |}).
Proof.
  intros _ Hf Ho Hd He.
  destruct (listed_level_number _ (level_name_listed level)) as (n & Hn & Hin).
  exists n. split; [exact Hn|]. split; [exact Hin|].
  destruct file as [|c rest]; [done|]. run_setup. rewrite Ho, Hn. cbn.
  rewrite Hd.
  destruct e as [b|text|text|text]; try reflexivity.
  destruct (He text eq_refl).
Qed.

(** X10, at a host where the client is installed under the name [pynvim],
    with the level [info]. *)
Lemma lookup_failure_leaves_setup_witness :
  (ascii_text "info" = true
   ∧ "/tmp/chromatica.log" ≠ ""
   ∧ open_handler client_named_pynvim "/tmp/chromatica.log" = Returns tt
   ∧ neovim_distribution client_named_pynvim
     = Raises (DistributionNotFound "The 'neovim' distribution was not found")
   ∧ ∀ text, DistributionNotFound "The 'neovim' distribution was not found"
             ≠ ImportError text)
  ∧ setup "info" (Some "/tmp/chromatica.log") client_named_pynvim imported
    = (Raises (DistributionNotFound
                 "The 'neovim' distribution was not found"),
       {| init := true;
          trace := [ FileHandler "/tmp/chromatica.log";
                     setFormatter log_format; addFilter __init__;
                     addHandler; setLevel 20 ] |}).
Proof.
  assert (H : ∀ text, DistributionNotFound
                        "The 'neovim' distribution was not found"
                      ≠ ImportError text)
    by (intros text; discriminate).
  assert (Hf : "/tmp/chromatica.log" ≠ "") by discriminate.
  split; [exact (conj eq_refl (conj Hf (conj eq_refl (conj eq_refl H))))|].
  destruct (lookup_failure_leaves_setup "info" "/tmp/chromatica.log"
              client_named_pynvim _ eq_refl Hf eq_refl eq_refl H)
    as (n & Hn & _ & Hs).
  vm_compute in Hn. injection Hn as <-. exact Hs.
Defined.

(** X11.  When [pkg_resources] cannot be imported, [setup] goes on with the
    client version ['unknown'].  For an ASCII level text, if the file
    opens, the library returns and Neovim answers, [setup] returns having
    done this and nothing else, in this order: the handler is created, its
    formatter set, the filter added, the handler put on [root], the level
    set; [chromatica.logging] logs the start line; Neovim is asked its
    version; the second line is logged with Neovim's answer, the three
    numbers of [sys.version_info] in decimal joined by dots, and
    ['unknown']; Neovim is told ['Logging to ' + output_file]. *)
Theorem import_failure_is_absorbed level file host text editor answer
    major minor micro :
  ascii_text level = true →
  file ≠ "" →
  open_handler host file = Returns tt →
  neovim_distribution host = Raises (ImportError text) →
  version_info host = (major, minor, micro) →
  (∀ msg args, logger_info host (getLogger "logging") msg args = Returns tt) →
  nvim host "chromatica#util#neovim_version" [] = Returns editor →
  nvim host "chromatica#util#print_warning" ["Logging to " +:+ file]
  = Returns answer →
  ∃ n,
    logging_getattr (level_name level) = Some n
    ∧ n ∈ [10; 20; 30; 40; 50]
    ∧ setup level (Some file) host imported
      = (Returns tt,
         {| init := true;
            trace :=
              [ FileHandler file; setFormatter log_format;
                addFilter __init__; addHandler; setLevel n;
                log_info "chromatica.logging" "--- Chromatica Log Start ---"
                  [];
                vim_call "chromatica#util#neovim_version" [];
                log_info "chromatica.logging"
                  "%s, Python %s, neovim client %s"
                  [ ArgStr editor;
                    ArgStr (pretty major +:+ "." +:+ pretty minor
                            +:+ "." +:+ pretty micro);
                    ArgStr "unknown" ];
                vim_call "chromatica#util#print_warning"
                  ["Logging to " +:+ file] ] |}).
Proof.
  intros _ Hf Ho Hd Hi Hl Hv Hw.
  destruct (listed_level_number _ (level_name_listed level)) as (n & Hn & Hin).
  exists n. split; [exact Hn|]. split; [exact Hin|].
  destruct file as [|c rest]; [done|].
  run_setup. rewrite Ho, Hn. cbn. rewrite Hd. cbn.
  repeat (cbn; rewrite ?Hl, ?Hv, ?Hw, ?Hi). reflexivity.
Qed.

(** X11, at a host without [pkg_resources] that runs Python 3.10.12, with
    the level [WARN]. *)
Lemma import_failure_is_absorbed_witness :
  (ascii_text "WARN" = true
   ∧ "/tmp/chromatica.log" ≠ ""
   ∧ open_handler without_pkg_resources "/tmp/chromatica.log" = Returns tt
   ∧ neovim_distribution without_pkg_resources
     = Raises (ImportError "No module named 'pkg_resources'")
   ∧ version_info without_pkg_resources = (3, 10, 12)%N)
  ∧ setup "WARN" (Some "/tmp/chromatica.log") without_pkg_resources imported
    = (Returns tt,
       {| init := true;
          trace :=
            [ FileHandler "/tmp/chromatica.log"; setFormatter log_format;
              addFilter __init__; addHandler; setLevel 30;
              log_info "chromatica.logging" "--- Chromatica Log Start ---" [];
              vim_call "chromatica#util#neovim_version" [];
              log_info "chromatica.logging"
                "%s, Python %s, neovim client %s"
                [ArgStr "NVIM v0.9.5"; ArgStr "3.10.12"; ArgStr "unknown"];
              vim_call "chromatica#util#print_warning"
                ["Logging to /tmp/chromatica.log"] ] |}).
Proof.
  assert (Hf : "/tmp/chromatica.log" ≠ "") by discriminate.
  split;
    [exact (conj eq_refl (conj Hf (conj eq_refl (conj eq_refl eq_refl))))|].
  destruct (import_failure_is_absorbed "WARN" "/tmp/chromatica.log"
              without_pkg_resources "No module named 'pkg_resources'"
              "NVIM v0.9.5" "0" 3%N 10%N 12%N
              eq_refl Hf eq_refl eq_refl eq_refl (λ _ _, eq_refl)
              eq_refl eq_refl)
    as (n & Hn & _ & Hs).
  vm_compute in Hn. injection Hn as <-. exact Hs.
Defined.

End setup_properties.

(** * Properties of [logmethod] and [LoggingMixin] *)

Section mixin_properties.

Import startup mixin.

Ltac each_method H :=
  unfold methods in H;
  repeat (apply elem_of_cons in H as [H|H]; [injection H as -> ->|]);
  [ .. | apply elem_of_nil in H; destruct H ].

(** What a method leaves: the world as it was when the call is skipped,
    and otherwise one more call, on the logger the object holds from then
    on. *)
Lemma method_leaves attribute m text arguments keywords context w :
  (attribute, m) ∈ methods →
  snd (m text arguments keywords context w)
  = if negb (init context) || negb (debug_enabled (self w)) then w
    else
      let b := default (getLogger (name_or_unknown (self w)))
                 (_logger (self w)) in
      {| self := {| debug_enabled := debug_enabled (self w);
                    _logger := Some b;
                    name := name (self w) |};
         logged := logged w
                   ++ [ {| logger := b;
                           method := if bool_decide (attribute = "warn")
                                     then "warning"
                                     else if bool_decide (attribute = "fatal")
                                          then "critical" else attribute;
                           msg := text; args := arguments;
                           kwargs := keywords |} ] |}.
Proof.
  intros H. destruct w as [[enabled bound named] calls].
  each_method H;
    unfold debug, info, warning, warn, error, exception, critical, fatal,
      warning, critical, logmethod, forward; cbn;
    destruct (init context), enabled, bound; reflexivity.
Qed.

(** X12.  A method of [LoggingMixin] does nothing at all unless [setup] has
    been called and the object has [debug_enabled] set: no logger is bound
    and nothing reaches the library.  Otherwise it makes exactly one call
    into the library, with the message, arguments and keyword arguments it
    was given, on the logger of the object, which it binds first when there
    is none, to the child of [root] named after the object or ['unknown'];
    the method called is the one of its own name, [warning] for [warn] and
    [critical] for [fatal].  The call ends as the library call ends:
    [_logger] is never read while it is [None]. *)
Theorem method_skips_or_forwards attribute m text arguments keywords context w :
  (attribute, m) ∈ methods →
  if negb (init context) || negb (debug_enabled (self w))
  then m text arguments keywords context w = (Returns tt, w)
  else
    let c := {| logger := default (getLogger (name_or_unknown (self w)))
                            (_logger (self w));
                method := if bool_decide (attribute = "warn") then "warning"
                          else if bool_decide (attribute = "fatal")
                               then "critical" else attribute;
                msg := text; args := arguments; kwargs := keywords |} in
    m text arguments keywords context w
    = (library context c,
       {| self := {| debug_enabled := debug_enabled (self w);
                     _logger := Some (logger c);
                     name := name (self w) |};
          logged := logged w ++ [c] |}).
Proof.
  intros H. destruct w as [[enabled bound named] calls].
  each_method H;
    unfold debug, info, warning, warn, error, exception, critical, fatal,
      warning, critical, logmethod, forward; cbn;
    destruct (init context), enabled, bound; reflexivity.
Qed.

(** X12, at [warn] on the parser while the library lets an exception
    through. *)
Lemma method_skips_or_forwards_witness :
  ("warn", warn) ∈ methods
  ∧ warn "no flags for %s" [ArgStr "main.c"] []
      {| init := true; library := failing_library |}
      {| self := parser; logged := [] |}
    = (Raises (Builtin (OSError "EOF")),
       {| self := {| debug_enabled := true;
                     _logger := Some "chromatica.parser";
                     name := Some "parser" |};
          logged := [ {| logger := "chromatica.parser"; method := "warning";
                         msg := "no flags for %s";
                         args := [ArgStr "main.c"]; kwargs := [] |} ] |}).
Proof.
  assert (H : ("warn", warn) ∈ methods).
  { unfold methods. do 3 (apply elem_of_cons; right).
    apply elem_of_cons. left. reflexivity. }
  split; [exact H|].
  exact (method_skips_or_forwards "warn" warn "no flags for %s"
           [ArgStr "main.c"] []
           {| init := true; library := failing_library |}
           {| self := parser; logged := [] |} H).
Defined.

(** One step keeps the logger of an object that has one, and sends what it
    logs to that logger. *)
Lemma step_keeps_logger s w l :
  of_class s →
  _logger (self w) = Some l →
  Forall (λ c, logger c = l) (logged w) →
  _logger (self (step s w)) = Some l
  ∧ Forall (λ c, logger c = l) (logged (step s w)).
Proof.
  intros Hs Hb Hl. destruct s as [n|b|m text arguments keywords context]; cbn.
  - split; assumption.
  - split; assumption.
  - destruct Hs as [attribute Hm].
    rewrite (method_leaves attribute m text arguments keywords context w Hm).
    destruct (negb (init context) || negb (debug_enabled (self w))).
    + split; assumption.
    + cbn. rewrite Hb. cbn. split; [reflexivity|].
      apply Forall_app. split; [exact Hl|]. repeat constructor.
Qed.

Lemma steps_keep_logger l :
  ∀ w, Forall of_class l →
       ∀ b, _logger (self w) = Some b →
            Forall (λ c, logger c = b) (logged w) →
            _logger (self (steps l w)) = Some b
            ∧ Forall (λ c, logger c = b) (logged (steps l w)).
Proof.
  induction l as [|s rest IH]; intros w Hall b Hb Hl; cbn.
  - split; assumption.
  - apply Forall_cons in Hall as [Hs Hall].
    destruct (step_keeps_logger s w b Hs Hb Hl) as [Hb' Hl'].
    exact (IH (step s w) Hall b Hb' Hl').
Qed.

(** A step on an object without a logger that has logged nothing: it still
    has none and has logged nothing, or it has one now. *)
Lemma step_binds s w :
  of_class s →
  _logger (self w) = None → logged w = [] →
  (_logger (self (step s w)) = None ∧ logged (step s w) = [])
  ∨ ∃ b, _logger (self (step s w)) = Some b
         ∧ Forall (λ c, logger c = b) (logged (step s w)).
Proof.
  intros Hs Hb Hl. destruct s as [n|b|m text arguments keywords context]; cbn.
  - left. split; assumption.
  - left. split; assumption.
  - destruct Hs as [attribute Hm].
    rewrite (method_leaves attribute m text arguments keywords context w Hm).
    destruct (negb (init context) || negb (debug_enabled (self w))).
    + left. split; assumption.
    + cbn. rewrite Hb, Hl. cbn. right.
      eexists. split; [reflexivity|]. repeat constructor.
Qed.

(** X13.  An object logs to one logger all its life.  Whatever the plugin
    assigns to [name] and [debug_enabled] between the calls, every call the
    object has made into the library is on the logger it holds: the one it
    came with, or else the one bound by its first call that was not
    skipped.  A later change of [name] does not move it. *)
Theorem one_logger_per_object l o :
  Forall of_class l →
  match _logger (self (steps l {| self := o; logged := [] |})) with
  | Some b =>
      Forall (λ c, logger c = b)
        (logged (steps l {| self := o; logged := [] |}))
      ∧ (∀ b0, _logger o = Some b0 → b0 = b)
  | None =>
      logged (steps l {| self := o; logged := [] |}) = []
      ∧ _logger o = None
  end.
Proof.
  destruct (_logger o) as [b0|] eqn:Hb0.
  - intros Hall.
    destruct (steps_keep_logger l {| self := o; logged := [] |} Hall b0 Hb0)
      as [Hb Hl]; [constructor|].
    rewrite Hb. split; [exact Hl|]. intros b1 [= ->]. reflexivity.
  - assert (Hgen : ∀ w, Forall of_class l →
              _logger (self w) = None → logged w = [] →
              match _logger (self (steps l w)) with
              | Some b => Forall (λ c, logger c = b) (logged (steps l w))
              | None => logged (steps l w) = []
              end).
    { induction l as [|s rest IH]; intros w Hall Hb Hl; cbn.
      - rewrite Hb. exact Hl.
      - apply Forall_cons in Hall as [Hs Hall].
        destruct (step_binds s w Hs Hb Hl) as [[Hb' Hl']|(b & Hb' & Hl')].
        + exact (IH (step s w) Hall Hb' Hl').
        + destruct (steps_keep_logger rest (step s w) Hall b Hb' Hl')
            as [Hb2 Hl2].
          unfold steps in Hb2, Hl2. rewrite Hb2. exact Hl2. }
    intros Hall. specialize (Hgen {| self := o; logged := [] |} Hall Hb0 eq_refl).
    destruct (_logger (self (steps l {| self := o; logged := [] |}))).
    + split; [exact Hgen|]. intros b1 H. discriminate H.
    + split; [exact Hgen | reflexivity].
Qed.

(** X13, at the parser renamed between two calls. *)
Lemma one_logger_per_object_witness :
  Forall of_class renamed
  ∧ _logger (self (steps renamed {| self := parser; logged := [] |}))
    = Some "chromatica.parser"
  ∧ Forall (λ c, logger c = "chromatica.parser")
      (logged (steps renamed {| self := parser; logged := [] |})).
Proof.
  assert (Hall : Forall of_class renamed).
  { unfold renamed. repeat constructor.
    - exists "error". unfold methods. do 4 (apply elem_of_cons; right).
      apply elem_of_cons. left. reflexivity.
    - exists "info". unfold methods. apply elem_of_cons. right.
      apply elem_of_cons. left. reflexivity. }
  split; [exact Hall|].
  pose proof (one_logger_per_object renamed parser Hall) as H.
  change (_logger (self (steps renamed {| self := parser; logged := [] |})))
    with (Some "chromatica.parser") in H.
  split; [reflexivity | exact (proj1 H)].
Defined.

(** X14.  [debug_enabled] alone does not make an object log: until [setup]
    has been called its methods are skipped.  Any call of [setup] switches
    them on, also one that was given no file or that ended with an
    exception and so installed no handler: from then on a method of an
    object with [debug_enabled] set makes its call into the library. *)
Theorem methods_wait_for_setup attribute m text arguments keywords library o
    level file host :
  (attribute, m) ∈ methods →
  debug_enabled o = true →
  snd (m text arguments keywords
         {| init := startup.init imported; library := library |}
         {| self := o; logged := [] |})
  = {| self := o; logged := [] |}
  ∧ length (logged (snd (m text arguments keywords
                           {| init := startup.init
                                        (snd (setup level file host imported));
                              library := library |}
                           {| self := o; logged := [] |}))) = 1%nat.
Proof.
  intros Hm He. split.
  - rewrite (method_leaves attribute m text arguments keywords _ _ Hm).
    reflexivity.
  - rewrite (setup_sets_init level file host imported).
    rewrite (method_leaves attribute m text arguments keywords _ _ Hm).
    cbn. rewrite He. reflexivity.
Qed.

(** X14, at the parser, before and after a [setup] that was given no
    file. *)
Lemma methods_wait_for_setup_witness :
  (("error", error) ∈ methods ∧ debug_enabled parser = true)
  ∧ snd (error "no compilation database" [] []
           {| init := startup.init imported; library := quiet_library |}
           {| self := parser; logged := [] |})
    = {| self := parser; logged := [] |}
  ∧ length (logged (snd (error "no compilation database" [] []
                           {| init := startup.init
                                        (snd (setup "DEBUG" None working
                                                imported));
                              library := quiet_library |}
                           {| self := parser; logged := [] |}))) = 1%nat.
Proof.
  assert (Hm : ("error", error) ∈ methods).
  { unfold methods. do 4 (apply elem_of_cons; right).
    apply elem_of_cons. left. reflexivity. }
  split; [exact (conj Hm eq_refl)|].
  exact (methods_wait_for_setup "error" error "no compilation database" [] []
           quiet_library parser "DEBUG" None working Hm eq_refl).
Defined.

End mixin_properties.
